(** * Adafruit_MS8607: calibration CRC, conversion sequencing and compensation

    A shallow embedding of [Adafruit_MS8607.cpp] (the pressure/temperature
    part of the MS8607 driver) and the properties its specification states
    about it.

    Conventions.
    - C integers are [Z] with the wrap-around of their type written out
      ([CInt.to_uint8], [CInt.to_int32], ...).  [>>] on a signed value is
      the arithmetic shift ([Z.shiftr]), as every supported compiler does.
    - An array reached through a pointer is a [list Z]; an access outside
      the list is undefined in C and is [None] here.
    - [float] is IEEE-754 binary32 with round-to-nearest-even, taken from
      the Standard Library's [SpecFloat].
    - The I2C device, [delay] and [millis] are external: the bus is a script
      of replies consumed one per transaction, and every transaction and
      delay is appended to a trace. *)

From Stdlib Require Import ZArith Lia List Bool.
From Stdlib Require Import Floats.SpecFloat.
From stdpp Require Import base option list.

Local Open Scope Z_scope.

(** ** C integer types *)

Module CInt.

Definition to_uint8 (z : Z) : Z := z mod 2 ^ 8.
Definition to_uint16 (z : Z) : Z := z mod 2 ^ 16.
Definition to_uint32 (z : Z) : Z := z mod 2 ^ 32.
Definition to_int32 (z : Z) : Z := (z + 2 ^ 31) mod 2 ^ 32 - 2 ^ 31.
Definition to_int64 (z : Z) : Z := (z + 2 ^ 63) mod 2 ^ 64 - 2 ^ 63.

(** Conversion of an integer to [bool]: non-zero is [true]. *)
Definition to_bool (z : Z) : bool := negb (z =? 0).
Definition of_bool (b : bool) : Z := if b then 1 else 0.

(** Arithmetic of [int32_t] and [int64_t] operands. *)
Definition i32_sub (a b : Z) : Z := to_int32 (a - b).
Definition i32_shl (a n : Z) : Z := to_int32 (Z.shiftl a n).
Definition i64_add (a b : Z) : Z := to_int64 (a + b).
Definition i64_sub (a b : Z) : Z := to_int64 (a - b).
Definition i64_mul (a b : Z) : Z := to_int64 (a * b).
Definition i64_div (a b : Z) : Z := to_int64 (Z.quot a b).
Definition i64_shl (a n : Z) : Z := to_int64 (Z.shiftl a n).
Definition i64_shr (a n : Z) : Z := Z.shiftr a n.

Definition is_uint8 (z : Z) : Prop := 0 <= z < 2 ^ 8.
Definition is_uint16 (z : Z) : Prop := 0 <= z < 2 ^ 16.
Definition is_uint24 (z : Z) : Prop := 0 <= z < 2 ^ 24.

End CInt.
Import CInt.

(** ** Arrays behind a pointer *)

(** [p[i] = v]: defined only inside the array. *)
Definition store (p : list Z) (i : nat) (v : Z) : option (list Z) :=
  if decide (i < length p)%nat then Some (<[i:=v]> p) else None.

(** ** The PROM checksum: [_psensor_crc_check] *)

Module CRC.

(** Body of the inner loop:
    [if (n_rem & 0x8000) n_rem = (n_rem << 1) ^ 0x3000; else n_rem <<= 1;] *)
Definition crc_shift (n_rem : Z) : Z :=
  if to_bool (Z.land n_rem 0x8000)
  then to_uint16 (Z.lxor (Z.shiftl n_rem 1) 0x3000)
  else to_uint16 (Z.shiftl n_rem 1).

(** [for (n_bit = 8; n_bit > 0; n_bit--)] *)
Fixpoint crc_bits (n_bit : nat) (n_rem : Z) : Z :=
  match n_bit with
  | O => n_rem
  | S n_bit' => crc_bits n_bit' (crc_shift n_rem)
  end.

(** "Get next byte": odd counts take the low byte of word [cnt >> 1], even
    counts its high byte; the byte is XORed into [n_rem] as it is, that is
    into the low byte of the remainder. *)
Definition next_byte (n_prom : list Z) (cnt : Z) (n_rem : Z) : option Z :=
  w ← n_prom !! Z.to_nat (Z.shiftr cnt 1);
  if cnt mod 2 =? 1
  then Some (to_uint16 (Z.lxor n_rem (Z.land w 0x00FF)))
  else Some (to_uint16 (Z.lxor n_rem (Z.shiftr w 8))).

(** [for (cnt = 0; cnt < (7 + 1) * 2; cnt++)], over the values of [cnt]. *)
Fixpoint crc_loop (cnts : list Z) (n_prom : list Z) (n_rem : Z) : option Z :=
  match cnts with
  | [] => Some n_rem
  | cnt :: cnts' =>
      n_rem ← next_byte n_prom cnt n_rem;
      crc_loop cnts' n_prom (crc_bits 8 n_rem)
  end.

(** The function returns its verdict; the array it was given is returned
    next to it, as the caller sees it afterwards. *)
Definition _psensor_crc_check (n_prom : list Z) (crc : Z)
  : option (bool * list Z) :=
  let n_rem := 0x00 in
  crc_read ← n_prom !! 0%nat;
  n_prom ← store n_prom 7 0;
  w0 ← n_prom !! 0%nat;
  n_prom ← store n_prom 0 (Z.land 0x0FFF w0);
  n_rem ← crc_loop (seqZ 0 ((7 + 1) * 2)) n_prom n_rem;
  let n_rem := Z.shiftr n_rem 12 in
  n_prom ← store n_prom 0 crc_read;
  Some (n_rem =? crc, n_prom).

(** *** The checksum as the specification words it *)

(** A word as two bytes, high byte first. *)
Definition word_bytes (w : Z) : list Z := [Z.shiftr w 8; Z.land w 0xFF].

(** The 16 bytes that are processed: word 0 without its top nibble, words
    1 to 6, and a synthetic eighth word equal to 0. *)
Definition crc_message (words : list Z) : list Z :=
  mjoin (word_bytes <$> (alter (Z.land 0x0FFF) 0%nat words ++ [0])).

(** Specification, step 4 as written: the byte goes into the HIGH byte of
    the remainder, then 8 shift steps. *)
Definition spec_step_high (n_rem byte : Z) : Z :=
  crc_bits 8 (Z.lxor n_rem (Z.shiftl byte 8)).

Definition spec_crc4_high (words : list Z) : Z :=
  Z.shiftr (fold_left spec_step_high (crc_message words) 0) 12.

(** The same with the byte going into the LOW byte of the remainder. *)
Definition step_low (n_rem byte : Z) : Z :=
  crc_bits 8 (Z.lxor n_rem byte).

Definition crc4 (words : list Z) : Z :=
  Z.shiftr (fold_left step_low (crc_message words) 0) 12.

(** The argument [_init] passes for [crc]: [(buffer[0] & 0xF000) >> 12],
    converted to [uint8_t]. *)
Definition crc_nibble (word0 : Z) : Z :=
  to_uint8 (Z.shiftr (Z.land word0 0xF000) 12).

(** The nibble stored in the top 4 bits of word 0 of a calibration vector. *)
Definition stored_crc (words : list Z) : Z := crc_nibble (words !!! 0%nat).

(** A single-bit flip: bit [j] of word [i]. *)
Definition flip_bit (i j : nat) (words : list Z) : list Z :=
  alter (fun w => Z.lxor w (2 ^ Z.of_nat j)) i words.

(** The bit positions of 7 words of 16 bits. *)
Definition bit_positions : list (nat * nat) :=
  i ← seq 0 7; j ← seq 0 16; [(i, j)].

End CRC.
Import CRC.

(** ** [float] *)

Module Float32.

Definition prec : Z := 24.
Definition emax : Z := 128.

Definition float : Type := spec_float.

(** Conversion of an integer to [float]. *)
Definition of_Z (z : Z) : float := binary_normalize prec emax z 0 false.
Definition sub : float -> float -> float := SFsub prec emax.
Definition div : float -> float -> float := SFdiv prec emax.

End Float32.

(** ** The device object and its environment *)

(** The macros, the enumerator and the size that the code takes from
    [Adafruit_MS8607.h] and [Adafruit_Sensor.h].  The headers are not among
    the sources: their values are parameters of the driver. *)
Record Header := {
  PROM_ADDRESS_READ_ADDRESS_0 : Z;
  PSENSOR_START_TEMPERATURE_ADC_CONVERSION : Z;
  PSENSOR_START_PRESSURE_ADC_CONVERSION : Z;
  PSENSOR_READ_ADC : Z;
  MS8607_PRESSURE_RESOLUTION_OSR_8192 : Z;
  SENSOR_TYPE_AMBIENT_TEMPERATURE : Z;
  SENSOR_TYPE_PRESSURE : Z;
  sizeof_sensors_event_t : Z
}.

(** Modelled from the spec: the declarations of the data members of
    [Adafruit_MS8607], which are in the header.  The members are those the
    code reads or writes; the data model of the specification makes the six
    calibration constants unsigned 16-bit words and the cached reading two
    [float]s. *)
Record Adafruit_MS8607 := {
  press_sens : Z;
  press_offset : Z;
  press_sens_temp_coeff : Z;
  press_offset_temp_coeff : Z;
  ref_temp : Z;
  temp_temp_coeff : Z;
  psensor_resolution_osr : Z;
  _temperature : Float32.float;
  _pressure : Float32.float;
  _sensorid_temp : Z;
  _sensorid_pressure : Z
}.

(** The I2C device ([Adafruit_I2CDevice]) is an external library.  What it
    reports for one bus transaction: [Nak] when the transaction fails,
    [Ack rx] with the bytes the device sends otherwise ([rx] is empty for a
    plain write). *)
Inductive reply :=
| Ack (rx : list Z)
| Nak.

Inductive bus_op :=
| I2CWrite (bytes : list Z)
| I2CWriteThenRead (bytes : list Z) (read_len : nat)
| DelayMs (ms : Z).

Record State := {
  this : Adafruit_MS8607;
  bus_in : list reply;     (* replies still to come, one per transaction *)
  bus_log : list bus_op;   (* transactions and delays so far, oldest first *)
  clock : Z                (* milliseconds since start *)
}.

(** State passing with undefined behaviour as [None]. *)
Definition M (A : Type) : Type := State -> option (A * State).

#[export] Instance M_ret : MRet M := fun A (a : A) s => Some (a, s).
#[export] Instance M_bind : MBind M := fun A B (f : A -> M B) (m : M A) s =>
  match m s with
  | Some (a, s') => f a s'
  | None => None
  end.

Definition lift {A} (o : option A) : M A := fun s =>
  match o with
  | Some a => Some (a, s)
  | None => None
  end.

Definition get_this : M Adafruit_MS8607 := fun s => Some (this s, s).

Definition with_this (s : State) (d : Adafruit_MS8607) : State :=
  {| this := d; bus_in := bus_in s; bus_log := bus_log s; clock := clock s |}.

Definition put_this (d : Adafruit_MS8607) : M unit := fun s =>
  Some (tt, with_this s d).

(** One transaction: the next reply is consumed (a bus that has nothing
    left to say fails) and the operation is logged. *)
Definition advance (s : State) (op : bus_op) : State :=
  {| this := this s; bus_in := tl (bus_in s);
     bus_log := bus_log s ++ [op]; clock := clock s |}.

Definition transact (op : bus_op) : M reply := fun s =>
  Some (hd Nak (bus_in s), advance s op).

Definition acked (r : reply) : bool :=
  match r with
  | Ack _ => true
  | Nak => false
  end.

(** The bytes a read of [rlen] bytes gets from a reply: the transaction
    succeeds when the device acknowledges and sends exactly [rlen] bytes. *)
Definition received (r : reply) (rlen : nat) : option (list Z) :=
  match r with
  | Ack rx => if decide (length rx = rlen) then Some (to_uint8 <$> rx) else None
  | Nak => None
  end.

(** [i2c_dev->write(buf, len)]. *)
Definition i2c_write (bytes : list Z) : M bool :=
  r ← transact (I2CWrite bytes);
  mret (acked r).

(** [i2c_dev->write_then_read(wbuf, wlen, rbuf, rlen)]: the bytes received,
    or [None] on failure, in which case the read buffer is left as it was. *)
Definition i2c_write_then_read (bytes : list Z) (rlen : nat)
  : M (option (list Z)) :=
  r ← transact (I2CWriteThenRead bytes rlen);
  mret (received r rlen).

Definition delay (ms : Z) : M unit := fun s =>
  Some (tt, {| this := this s; bus_in := bus_in s;
               bus_log := bus_log s ++ [DelayMs ms]; clock := clock s + ms |}).

Definition millis : M Z := fun s => Some (to_uint32 (clock s), s).

(** ** Compensation: the arithmetic of [_read] *)

(** The locals of [_read] once the arithmetic is done. *)
Record Compensation := {
  dT : Z;
  TEMP : Z;
  T2 : Z;
  OFF2 : Z;
  SENS2 : Z;
  OFF : Z;
  SENS : Z;
  P : Z
}.

(** Lines 238 to 270 of the source: [dT] and [TEMP] are [int32_t], the
    others [int64_t]; [raw_temp] and [raw_pressure] are [uint32_t]. *)
Definition compensate (d : Adafruit_MS8607) (raw_temp raw_pressure : Z)
  : Compensation :=
  let dT := i32_sub (to_int32 raw_temp) (i32_shl (to_int32 (ref_temp d)) 8) in
  let TEMP :=
    to_int32
      (i64_add 2000
         (i64_shr (i64_mul (to_int64 dT) (to_int64 (temp_temp_coeff d))) 23)) in
  let '(T2, OFF2, SENS2) :=
    if TEMP <? 2000 then
      let T2 := i64_shr (i64_mul 3 (i64_mul (to_int64 dT) (to_int64 dT))) 33 in
      let OFF2 :=
        i64_div (i64_mul (i64_mul 61 (i64_sub (to_int64 TEMP) 2000))
                   (i64_sub (to_int64 TEMP) 2000)) 16 in
      let SENS2 :=
        i64_div (i64_mul (i64_mul 29 (i64_sub (to_int64 TEMP) 2000))
                   (i64_sub (to_int64 TEMP) 2000)) 16 in
      if TEMP <? -1500 then
        (T2,
         i64_add OFF2
           (i64_mul (i64_mul 17 (i64_add (to_int64 TEMP) 1500))
              (i64_add (to_int64 TEMP) 1500)),
         i64_add SENS2
           (i64_mul (i64_mul 9 (i64_add (to_int64 TEMP) 1500))
              (i64_add (to_int64 TEMP) 1500)))
      else (T2, OFF2, SENS2)
    else
      (i64_shr (i64_mul 5 (i64_mul (to_int64 dT) (to_int64 dT))) 38, 0, 0) in
  let OFF :=
    i64_add (i64_shl (to_int64 (press_offset d)) 17)
      (i64_shr (i64_mul (to_int64 (press_offset_temp_coeff d)) dT) 6) in
  let OFF := i64_sub OFF OFF2 in
  let SENS :=
    i64_add (i64_shl (to_int64 (press_sens d)) 16)
      (i64_shr (i64_mul (to_int64 (press_sens_temp_coeff d)) dT) 7) in
  let SENS := i64_sub SENS SENS2 in
  let P :=
    i64_shr (i64_sub (i64_shr (i64_mul (to_int64 raw_pressure) SENS) 21) OFF)
      15 in
  {| dT := dT; TEMP := TEMP; T2 := T2; OFF2 := OFF2; SENS2 := SENS2;
     OFF := OFF; SENS := SENS; P := P |}.

(** [_temperature = ((float)TEMP - T2) / 100], [_pressure = (float)P / 100]:
    the integer operands are converted to [float]. *)
Definition temperature_of (c : Compensation) : Float32.float :=
  Float32.div (Float32.sub (Float32.of_Z (TEMP c)) (Float32.of_Z (T2 c)))
    (Float32.of_Z 100).

Definition pressure_of (c : Compensation) : Float32.float :=
  Float32.div (Float32.of_Z (P c)) (Float32.of_Z 100).

Definition store_reading (d : Adafruit_MS8607) (c : Compensation)
  : Adafruit_MS8607 :=
  {| press_sens := press_sens d; press_offset := press_offset d;
     press_sens_temp_coeff := press_sens_temp_coeff d;
     press_offset_temp_coeff := press_offset_temp_coeff d;
     ref_temp := ref_temp d; temp_temp_coeff := temp_temp_coeff d;
     psensor_resolution_osr := psensor_resolution_osr d;
     _temperature := temperature_of c; _pressure := pressure_of c;
     _sensorid_temp := _sensorid_temp d;
     _sensorid_pressure := _sensorid_pressure d |}.

(** *** The algorithm as the specification writes it

    Mathematical integers, no wrap-around.  [>>] is the shift of the
    two's-complement value (rounding towards minus infinity), and
    [2000 + (dT * c) >> 23] adds 2000 to the shifted product. *)
Definition spec_compensate (reference_temperature temp_temp_coeff
    pressure_offset pressure_offset_temp_coeff
    pressure_sens pressure_sens_temp_coeff
    raw_temperature raw_pressure : Z) : Compensation :=
  let dT := raw_temperature - Z.shiftl reference_temperature 8 in
  let TEMP := 2000 + Z.shiftr (dT * temp_temp_coeff) 23 in
  let T2 :=
    if TEMP <? 2000 then Z.shiftr (3 * dT ^ 2) 33
    else Z.shiftr (5 * dT ^ 2) 38 in
  let OFF2 :=
    if TEMP <? 2000 then
      61 * (TEMP - 2000) ^ 2 / 16
      + (if TEMP <? -1500 then 17 * (TEMP + 1500) ^ 2 else 0)
    else 0 in
  let SENS2 :=
    if TEMP <? 2000 then
      29 * (TEMP - 2000) ^ 2 / 16
      + (if TEMP <? -1500 then 9 * (TEMP + 1500) ^ 2 else 0)
    else 0 in
  let OFF :=
    Z.shiftl pressure_offset 17
    + Z.shiftr (pressure_offset_temp_coeff * dT) 6 - OFF2 in
  let SENS :=
    Z.shiftl pressure_sens 16
    + Z.shiftr (pressure_sens_temp_coeff * dT) 7 - SENS2 in
  let P := Z.shiftr (Z.shiftr (raw_pressure * SENS) 21 - OFF) 15 in
  {| dT := dT; TEMP := TEMP; T2 := T2; OFF2 := OFF2; SENS2 := SENS2;
     OFF := OFF; SENS := SENS; P := P |}.

(** The calibration constants of the object are [uint16_t] values. *)
Definition calibrated (d : Adafruit_MS8607) : Prop :=
  is_uint16 (press_sens d) /\ is_uint16 (press_offset d) /\
  is_uint16 (press_sens_temp_coeff d) /\
  is_uint16 (press_offset_temp_coeff d) /\
  is_uint16 (ref_temp d) /\ is_uint16 (temp_temp_coeff d).

(** The specification's algorithm on the constants of the object. *)
Definition spec_of (d : Adafruit_MS8607) (raw_temp raw_pressure : Z)
  : Compensation :=
  spec_compensate (ref_temp d) (temp_temp_coeff d)
    (press_offset d) (press_offset_temp_coeff d)
    (press_sens d) (press_sens_temp_coeff d) raw_temp raw_pressure.

(** ** The driver *)

(** [sensors_event_t], as far as the driver fills it.  Its [timestamp]
    member is an [int32_t]. *)
Record sensors_event_t := {
  ev_version : Z;
  ev_sensor_id : Z;
  ev_type : Z;
  ev_timestamp : Z;
  ev_value : Float32.float   (* the [temperature] / [pressure] member *)
}.

Section Driver.

Context (h : Header).

(** *** [_init] *)

(** The loop [for (int i = 0; i < 7; i++)] of [_init], over the values of
    [i].  [tmp_buffer] serves as write and as read buffer; the result of
    [write_then_read] is dropped, and a failed transaction leaves
    [tmp_buffer] as it was. *)
Fixpoint prom_loop (idx : list Z) (tmp_buffer : Z * Z) (buffer : list Z)
  : M (list Z) :=
  match idx with
  | [] => mret buffer
  | i :: idx' =>
      let offset := to_uint8 (2 * i) in
      let tmp_buffer :=
        (to_uint8 (PROM_ADDRESS_READ_ADDRESS_0 h + offset), snd tmp_buffer) in
      r ← i2c_write_then_read [fst tmp_buffer] 2;
      let tmp_buffer :=
        match r with
        | Some [b0; b1] => (b0, b1)
        | _ => tmp_buffer
        end in
      buffer ← lift (store buffer (Z.to_nat i)
                       (to_uint16 (Z.shiftl (fst tmp_buffer) 8)));
      w ← lift (buffer !! Z.to_nat i);
      buffer ← lift (store buffer (Z.to_nat i)
                       (to_uint16 (Z.lor w (snd tmp_buffer))));
      prom_loop idx' tmp_buffer buffer
  end.

Definition set_calibration (d : Adafruit_MS8607) (w1 w2 w3 w4 w5 w6 : Z)
  : Adafruit_MS8607 :=
  {| press_sens := w1; press_offset := w2;
     press_sens_temp_coeff := w3; press_offset_temp_coeff := w4;
     ref_temp := w5; temp_temp_coeff := w6;
     psensor_resolution_osr := MS8607_PRESSURE_RESOLUTION_OSR_8192 h;
     _temperature := _temperature d; _pressure := _pressure d;
     _sensorid_temp := _sensorid_temp d;
     _sensorid_pressure := _sensorid_pressure d |}.

(** [tmp_buffer] and [buffer] are the contents the two automatic arrays
    happen to have on entry ([uint8_t[2]] and [uint16_t[8]]). *)
Definition _init (sensor_id : Z) (tmp_buffer : Z * Z) (buffer : list Z)
  : M bool :=
  buffer ← prom_loop (seqZ 0 7) tmp_buffer buffer;
  b0 ← lift (buffer !! 0%nat);
  '(ok, buffer) ←
    lift (_psensor_crc_check buffer (crc_nibble b0));
  if negb ok then mret false
  else
    w1 ← lift (buffer !! 1%nat);
    w2 ← lift (buffer !! 2%nat);
    w3 ← lift (buffer !! 3%nat);
    w4 ← lift (buffer !! 4%nat);
    w5 ← lift (buffer !! 5%nat);
    w6 ← lift (buffer !! 6%nat);
    d ← get_this;
    _ ← put_this (set_calibration d w1 w2 w3 w4 w5 w6);
    mret true.

(** *** [_read] *)

(** [((uint32_t)buffer[0] << 16) | ((uint32_t)buffer[1] << 8) | buffer[2]] *)
Definition adc_value (buffer : Z * Z * Z) : Z :=
  let '(b0, b1, b2) := buffer in
  to_uint32
    (Z.lor (Z.lor (to_uint32 (Z.shiftl (to_uint32 b0) 16))
                  (to_uint32 (Z.shiftl (to_uint32 b1) 8))) b2).

(** The bus part of [_read] (lines 210 to 236): the final [status] and the
    two raw values.  [status] and [buffer] are the contents these automatic
    variables happen to have on entry ([uint8_t] and [uint8_t[3]]). *)
Definition sample (status : Z) (buffer : Z * Z * Z) : M (Z * Z * Z) :=
  d ← get_this;
  (* First read temperature *)
  let cmd := to_uint8 (psensor_resolution_osr d * 2) in
  let cmd := to_uint8 (Z.lor cmd (PSENSOR_START_TEMPERATURE_ADC_CONVERSION h)) in
  r ← i2c_write [cmd];
  let status := to_uint8 (Z.lor status (of_bool r)) in
  _ ← delay 18;
  let buffer := (to_uint8 (PSENSOR_READ_ADC h), snd (fst buffer), snd buffer) in
  r ← i2c_write_then_read [fst (fst buffer)] 3;
  let status := to_uint8 (Z.lor status (of_bool (bool_decide (is_Some r)))) in
  let buffer :=
    match r with
    | Some [b0; b1; b2] => (b0, b1, b2)
    | _ => buffer
    end in
  let raw_temp := adc_value buffer in
  (* Now read pressure *)
  let cmd := to_uint8 (psensor_resolution_osr d * 2) in
  let cmd := to_uint8 (Z.lor cmd (PSENSOR_START_PRESSURE_ADC_CONVERSION h)) in
  r ← i2c_write [cmd];
  let status := to_uint8 (Z.lor status (of_bool r)) in
  _ ← delay 18;
  let buffer := (to_uint8 (PSENSOR_READ_ADC h), snd (fst buffer), snd buffer) in
  r ← i2c_write_then_read [fst (fst buffer)] 3;
  let status := to_uint8 (Z.lor status (of_bool (bool_decide (is_Some r)))) in
  let buffer :=
    match r with
    | Some [b0; b1; b2] => (b0, b1, b2)
    | _ => buffer
    end in
  let raw_pressure := adc_value buffer in
  mret (status, raw_temp, raw_pressure).

Definition _read (status : Z) (buffer : Z * Z * Z) : M bool :=
  '(status, raw_temp, raw_pressure) ← sample status buffer;
  d ← get_this;
  _ ← put_this (store_reading d (compensate d raw_temp raw_pressure));
  mret (to_bool status).

(** *** [getEvent] *)

(** [timestamp] is a [uint32_t] parameter; the assignment to the
    [int32_t] member [timestamp] of the event converts it. *)
Definition fillTempEvent (d : Adafruit_MS8607) (timestamp : Z)
  : sensors_event_t :=
  {| ev_version := sizeof_sensors_event_t h;
     ev_sensor_id := _sensorid_temp d;
     ev_type := SENSOR_TYPE_AMBIENT_TEMPERATURE h;
     ev_timestamp := to_int32 timestamp;
     ev_value := _temperature d |}.

Definition fillPressureEvent (d : Adafruit_MS8607) (timestamp : Z)
  : sensors_event_t :=
  {| ev_version := sizeof_sensors_event_t h;
     ev_sensor_id := _sensorid_pressure d;
     ev_type := SENSOR_TYPE_PRESSURE h;
     ev_timestamp := to_int32 timestamp;
     ev_value := _pressure d |}.

(** The three pointer arguments are either null ([false]) or point to an
    event to fill ([true]); the filled events are returned next to the
    result, pressure first.  [status] and [buffer] are passed on to
    [_read], whose result is dropped. *)
Definition getEvent (pressure temp humidity : bool)
    (status : Z) (buffer : Z * Z * Z)
  : M (bool * option sensors_event_t * option sensors_event_t) :=
  t ← millis;
  _ ← _read status buffer;
  d ← get_this;
  let temp_event := if temp then Some (fillTempEvent d t) else None in
  let pressure_event :=
    if pressure then Some (fillPressureEvent d t) else None in
  mret (true, pressure_event, temp_event).

End Driver.

(** The replies of a device that answers every PROM read, with the given
    words (high byte first). *)
Definition prom_replies (words : list Z) : list reply :=
  (fun w => Ack [Z.shiftr w 8; Z.land w 0xFF]) <$> words.

(** Three bytes, most significant first, as one number. *)
Definition big_endian24 (b0 b1 b2 : Z) : Z := b0 * 2 ^ 16 + b1 * 2 ^ 8 + b2.

(** ** Concrete devices and buses for the examples *)

(** The command values of the MS8607 data sheet; the other constants are
    those of the Adafruit headers. *)
Definition ms8607_h : Header :=
  {| PROM_ADDRESS_READ_ADDRESS_0 := 0xA0;
     PSENSOR_START_TEMPERATURE_ADC_CONVERSION := 0x50;
     PSENSOR_START_PRESSURE_ADC_CONVERSION := 0x40;
     PSENSOR_READ_ADC := 0x00;
     MS8607_PRESSURE_RESOLUTION_OSR_8192 := 5;
     SENSOR_TYPE_AMBIENT_TEMPERATURE := 13;
     SENSOR_TYPE_PRESSURE := 6;
     sizeof_sensors_event_t := 36 |}.

(** The calibration constants of the data sheet's worked example. *)
Definition dev0 : Adafruit_MS8607 :=
  {| press_sens := 46372; press_offset := 43981;
     press_sens_temp_coeff := 29059; press_offset_temp_coeff := 27842;
     ref_temp := 31553; temp_temp_coeff := 28165;
     psensor_resolution_osr := 5;
     _temperature := Float32.of_Z 0; _pressure := Float32.of_Z 0;
     _sensorid_temp := 1; _sensorid_pressure := 2 |}.

Definition st0 (replies : list reply) : State :=
  {| this := dev0; bus_in := replies; bus_log := []; clock := 1000 |}.

(** The same device after a read cycle has cached the data sheet's example
    reading (raw temperature 8077636, raw pressure 6465444: 20.00 degrees
    Celsius and 1100.02 mbar). *)
Definition dev_cached : Adafruit_MS8607 :=
  store_reading dev0 (compensate dev0 8077636 6465444).

Definition st_cached (replies : list reply) : State :=
  {| this := dev_cached; bus_in := replies; bus_log := []; clock := 2000 |}.

(** A read cycle in which every transaction succeeds. *)
Definition cycle_ok : list reply :=
  [Ack []; Ack [0x7B; 0x41; 0x44]; Ack []; Ack [0x62; 0xA7; 0xA4]].

(** The temperature start command is not acknowledged. *)
Definition cycle_first_fails : list reply :=
  [Nak; Ack [0x7B; 0x41; 0x44]; Ack []; Ack [0x62; 0xA7; 0xA4]].

(** The read of the raw pressure fails. *)
Definition cycle_last_fails : list reply :=
  [Ack []; Ack [0x7B; 0x41; 0x44]; Ack []; Nak].

(** A PROM whose checksum is right (words 0x4000, 46372, 43981, 29059,
    27842, 31553, 28175), read without failure. *)
Definition prom_ok : list reply :=
  [Ack [0x40; 0x00]; Ack [0xB5; 0x24]; Ack [0xAB; 0xCD]; Ack [0x71; 0x83];
   Ack [0x6C; 0xC2]; Ack [0x7B; 0x41]; Ack [0x6E; 0x0F]].

(** The same PROM when the seventh read fails. *)
Definition prom_last_fails : list reply :=
  [Ack [0x40; 0x00]; Ack [0xB5; 0x24]; Ack [0xAB; 0xCD]; Ack [0x71; 0x83];
   Ack [0x6C; 0xC2]; Ack [0x7B; 0x41]; Nak].

(** The same PROM with one bit of word 1 flipped on the way. *)
Definition prom_corrupt : list reply :=
  [Ack [0x40; 0x00]; Ack [0xB4; 0x24]; Ack [0xAB; 0xCD]; Ack [0x71; 0x83];
   Ack [0x6C; 0xC2]; Ack [0x7B; 0x41]; Ack [0x6E; 0x0F]].


(** ** Further notions for the checksum *)

(** A calibration vector with the top nibble of word 0 replaced. *)
Definition with_nibble (n : Z) (words : list Z) : list Z :=
  alter (fun w => Z.lor (Z.shiftl n 12) (Z.land w 0x0FFF)) 0%nat words.

(** The position of bit [j] of word [i] in the 112-bit stream of the 7
    words, counted from the least significant bit of word 6. *)
Definition stream_pos (i j : nat) : Z := 16 * (6 - Z.of_nat i) + Z.of_nat j.

(** The bits the checksum covers: all but the top nibble of word 0. *)
Definition data_bit (i j : nat) : bool :=
  (i <? 7)%nat && (j <? 16)%nat && negb ((i =? 0)%nat && (12 <=? j)%nat).

(** The powers of x modulo x^4 + x + 1, as nibbles: [x_power k] is
    x^k for [0 <= k < 15]. *)
Definition x_power (k : Z) : Z :=
  nth (Z.to_nat k) [1; 2; 4; 8; 3; 6; 12; 11; 5; 10; 7; 14; 15; 13; 9] 0.

(** ** Further devices for the examples *)

(** Calibration constants with which TEMP can reach exactly -1500. *)
Definition dev_cold : Adafruit_MS8607 :=
  {| press_sens := 46372; press_offset := 43981;
     press_sens_temp_coeff := 29059; press_offset_temp_coeff := 27842;
     ref_temp := 3500; temp_temp_coeff := 32768;
     psensor_resolution_osr := 5;
     _temperature := Float32.of_Z 0; _pressure := Float32.of_Z 0;
     _sensorid_temp := 1; _sensorid_pressure := 2 |}.

(** Calibration constants with a first-order temperature that stays at
    2000 over a wide range of raw temperatures. *)
Definition dev_flat : Adafruit_MS8607 :=
  {| press_sens := 46372; press_offset := 43981;
     press_sens_temp_coeff := 29059; press_offset_temp_coeff := 27842;
     ref_temp := 100; temp_temp_coeff := 1;
     psensor_resolution_osr := 5;
     _temperature := Float32.of_Z 0; _pressure := Float32.of_Z 0;
     _sensorid_temp := 1; _sensorid_pressure := 2 |}.

(** A device that has been running for 3000000 seconds, more than 2^31
    milliseconds. *)
Definition st_late (replies : list reply) : State :=
  {| this := dev0; bus_in := replies; bus_log := []; clock := 3000000000 |}.

(** ** The sensor views, callers of [getEvent] *)

Section Callers.

Context (h : Header).

(** [Adafruit_MS8607_Temp::getEvent]: [getEvent(NULL, event, NULL)], then
    true.  The event filled is returned next to the result. *)
Definition Temp_getEvent (status : Z) (buffer : Z * Z * Z)
  : M (bool * option sensors_event_t) :=
  r ← getEvent h false true false status buffer;
  mret (true, snd r).

(** [Adafruit_MS8607_Pressure::getEvent]: [getEvent(event, NULL, NULL)],
    then true. *)
Definition Pressure_getEvent (status : Z) (buffer : Z * Z * Z)
  : M (bool * option sensors_event_t) :=
  r ← getEvent h true false false status buffer;
  mret (true, snd (fst r)).

End Callers.

(** A device that answers a PROM read of the given words and then a read
    cycle with the given raw bytes, acknowledging every command. *)
Definition prom_then_cycle (words : list Z) (t p : Z * Z * Z) : list reply :=
  prom_replies words
  ++ [Ack []; Ack [t.1.1; t.1.2; t.2]; Ack []; Ack [p.1.1; p.1.2; p.2]].

(** * Properties *)

(** ** Bit-level facts *)

Lemma to_uint16_land (x : Z) : to_uint16 x = Z.land x 0xFFFF.
Proof. unfold to_uint16. rewrite <- (Z.land_ones x 16) by lia. reflexivity. Qed.

Lemma to_uint16_lxor (a b : Z) :
  to_uint16 (Z.lxor a b) = Z.lxor (to_uint16 a) (to_uint16 b).
Proof.
  rewrite !to_uint16_land. apply Z.bits_inj'. intros n _.
  rewrite !Z.lxor_spec, !Z.land_spec, Z.lxor_spec.
  destruct (Z.testbit 65535 n); rewrite ?andb_true_r, ?andb_false_r; reflexivity.
Qed.

Lemma to_uint16_idem (x : Z) : to_uint16 (to_uint16 x) = to_uint16 x.
Proof. unfold to_uint16. apply Z.mod_mod. lia. Qed.

Lemma land_bit15 (x : Z) :
  Z.land x 0x8000 = if Z.testbit x 15 then 0x8000 else 0.
Proof.
  apply Z.bits_inj'. intros n Hn. rewrite Z.land_spec.
  change 32768 with (2 ^ 15). rewrite Z.pow2_bits_eqb by lia.
  destruct (Z.eqb_spec 15 n) as [<- | Hne].
  - rewrite andb_true_r. destruct (Z.testbit x 15); [|reflexivity].
    symmetry. apply Z.pow2_bits_true. lia.
  - rewrite andb_false_r. destruct (Z.testbit x 15); [|symmetry; apply Z.bits_0].
    symmetry. apply Z.pow2_bits_false. exact Hne.
Qed.

(** The shift step with the feedback written as a mask. *)
Lemma crc_shift_mask (x : Z) :
  crc_shift x =
  to_uint16 (Z.lxor (Z.shiftl x 1) (if Z.testbit x 15 then 0x3000 else 0)).
Proof.
  unfold crc_shift, to_bool. rewrite land_bit15.
  destruct (Z.testbit x 15); simpl; [reflexivity|].
  rewrite Z.lxor_0_r. reflexivity.
Qed.

Lemma crc_shift_lxor (a b : Z) :
  crc_shift (Z.lxor a b) = Z.lxor (crc_shift a) (crc_shift b).
Proof.
  rewrite !crc_shift_mask, <- to_uint16_lxor. f_equal.
  rewrite Z.shiftl_lxor, Z.lxor_spec.
  set (sa := Z.shiftl a 1). set (sb := Z.shiftl b 1).
  destruct (Z.testbit a 15), (Z.testbit b 15); simpl.
  - rewrite Z.lxor_0_r.
    rewrite (Z.lxor_comm sb 12288), Z.lxor_assoc, <- (Z.lxor_assoc 12288).
    rewrite Z.lxor_nilpotent, Z.lxor_0_l. reflexivity.
  - rewrite Z.lxor_0_r.
    rewrite !Z.lxor_assoc. f_equal. apply Z.lxor_comm.
  - rewrite Z.lxor_0_r. rewrite Z.lxor_assoc. reflexivity.
  - rewrite !Z.lxor_0_r. reflexivity.
Qed.

Lemma crc_shift_wrap (x : Z) : crc_shift (to_uint16 x) = crc_shift x.
Proof.
  rewrite !crc_shift_mask.
  assert (Hbit : Z.testbit (to_uint16 x) 15 = Z.testbit x 15).
  { unfold to_uint16. apply Z.mod_pow2_bits_low. lia. }
  rewrite Hbit. rewrite !to_uint16_lxor. f_equal.
  unfold to_uint16. rewrite !Z.shiftl_mul_pow2 by lia.
  rewrite Z.mul_mod_idemp_l by lia. reflexivity.
Qed.

Lemma crc_shift_0 : crc_shift 0 = 0.
Proof. reflexivity. Qed.

Lemma crc_bits_lxor (n : nat) (a b : Z) :
  crc_bits n (Z.lxor a b) = Z.lxor (crc_bits n a) (crc_bits n b).
Proof.
  revert a b. induction n as [|n IH]; intros a b; simpl; [reflexivity|].
  rewrite crc_shift_lxor. apply IH.
Qed.

Lemma crc_bits_wrap (n : nat) (x : Z) :
  crc_bits (S n) (to_uint16 x) = crc_bits (S n) x.
Proof. simpl. rewrite crc_shift_wrap. reflexivity. Qed.

(** ** The loop of [_psensor_crc_check] as a fold over bytes *)

Lemma bind_Some {A B : Type} (x : A) (f : A -> option B) : (Some x ≫= f) = f x.
Proof. reflexivity. Qed.

Lemma crc_loop_cons (cnt : Z) (cnts n_prom : list Z) (r : Z) :
  crc_loop (cnt :: cnts) n_prom r
  = next_byte n_prom cnt r ≫= fun n_rem => crc_loop cnts n_prom (crc_bits 8 n_rem).
Proof. reflexivity. Qed.

Lemma step_low_wrap (r b : Z) : crc_bits 8 (to_uint16 (Z.lxor r b)) = step_low r b.
Proof. unfold step_low. apply crc_bits_wrap. Qed.

Lemma next_byte_even (pre post : list Z) (w r : Z) :
  next_byte (pre ++ w :: post) (2 * Z.of_nat (length pre)) r
  = Some (to_uint16 (Z.lxor r (Z.shiftr w 8))).
Proof.
  unfold next_byte.
  replace (Z.shiftr (2 * Z.of_nat (length pre)) 1) with (Z.of_nat (length pre)).
  2:{ rewrite Z.shiftr_div_pow2 by lia. change (2 ^ 1) with 2.
      rewrite Z.mul_comm, Z.div_mul by lia. reflexivity. }
  rewrite Nat2Z.id, list_lookup_middle by reflexivity. rewrite bind_Some.
  replace ((2 * Z.of_nat (length pre)) mod 2) with 0.
  2:{ rewrite Z.mul_comm, Z.mod_mul by lia. reflexivity. }
  reflexivity.
Qed.

Lemma next_byte_odd (pre post : list Z) (w r : Z) :
  next_byte (pre ++ w :: post) (Z.succ (2 * Z.of_nat (length pre))) r
  = Some (to_uint16 (Z.lxor r (Z.land w 0xFF))).
Proof.
  unfold next_byte.
  replace (Z.shiftr (Z.succ (2 * Z.of_nat (length pre))) 1)
    with (Z.of_nat (length pre)).
  2:{ rewrite Z.shiftr_div_pow2 by lia. change (2 ^ 1) with 2.
      apply Z.div_unique with (r := 1); lia. }
  rewrite Nat2Z.id, list_lookup_middle by reflexivity. rewrite bind_Some.
  replace (Z.succ (2 * Z.of_nat (length pre)) mod 2) with 1.
  2:{ apply Z.mod_unique with (q := Z.of_nat (length pre)); lia. }
  reflexivity.
Qed.

Lemma fold_bytes_cons (f : Z -> Z -> Z) (w : Z) (ws : list Z) (r : Z) :
  fold_left f (mjoin (word_bytes <$> w :: ws)) r
  = fold_left f (mjoin (word_bytes <$> ws)) (f (f r (Z.shiftr w 8)) (Z.land w 0xFF)).
Proof. reflexivity. Qed.

Lemma crc_loop_fold (mid pre post : list Z) (r : Z) :
  crc_loop (seqZ (2 * Z.of_nat (length pre)) (2 * Z.of_nat (length mid)))
    (pre ++ mid ++ post) r
  = Some (fold_left step_low (mjoin (word_bytes <$> mid)) r).
Proof.
  revert pre r. induction mid as [|w mid IH]; intros pre r.
  - rewrite seqZ_nil by (simpl; lia). reflexivity.
  - rewrite seqZ_cons by (simpl; lia).
    rewrite (seqZ_cons (Z.succ _)) by (simpl; lia).
    rewrite <- app_comm_cons.
    rewrite crc_loop_cons, next_byte_even, bind_Some, step_low_wrap.
    rewrite crc_loop_cons, next_byte_odd, bind_Some, step_low_wrap.
    rewrite fold_bytes_cons, <- (IH (pre ++ [w])).
    rewrite <- (app_assoc pre [w]), length_app.
    f_equal. f_equal; simpl length; lia.
Qed.

Lemma store_Some (p : list Z) (i : nat) (v : Z) :
  (i < length p)%nat -> store p i v = Some (<[i:=v]> p).
Proof. intros H. unfold store. rewrite decide_True by exact H. reflexivity. Qed.

Lemma store_None (p : list Z) (i : nat) (v : Z) :
  (length p <= i)%nat -> store p i v = None.
Proof. intros H. unfold store. rewrite decide_False by lia. reflexivity. Qed.

(** What [_psensor_crc_check] returns on an array of 8 elements or more:
    the comparison of [crc4] of the first 7 words with [crc], and the array
    with element 7 cleared. *)
Lemma crc_check_eq (n_prom : list Z) (crc : Z) :
  (8 <= length n_prom)%nat ->
  _psensor_crc_check n_prom crc
  = Some (crc4 (take 7 n_prom) =? crc, <[7%nat:=0]> n_prom).
Proof.
  intros Hlen.
  destruct n_prom as [|w0 [|w1 [|w2 [|w3 [|w4 [|w5 [|w6 [|w7 post]]]]]]]];
    simpl in Hlen; try lia.
  unfold _psensor_crc_check. cbv zeta.
  assert (H0 : (w0 :: w1 :: w2 :: w3 :: w4 :: w5 :: w6 :: w7 :: post) !! 0%nat
               = Some w0) by reflexivity.
  rewrite H0, bind_Some.
  rewrite store_Some by (simpl; lia). rewrite bind_Some.
  assert (H1 : <[7%nat:=0]> (w0 :: w1 :: w2 :: w3 :: w4 :: w5 :: w6 :: w7 :: post)
               = w0 :: w1 :: w2 :: w3 :: w4 :: w5 :: w6 :: 0 :: post)
    by reflexivity.
  rewrite H1.
  assert (H2 : (w0 :: w1 :: w2 :: w3 :: w4 :: w5 :: w6 :: 0 :: post) !! 0%nat
               = Some w0) by reflexivity.
  rewrite H2, bind_Some.
  rewrite store_Some by (simpl; lia). rewrite bind_Some.
  assert (H3 : forall (x v : Z) (l : list Z), <[0%nat:=v]> (x :: l) = v :: l)
    by reflexivity.
  rewrite H3.
  assert (Hloop :
    crc_loop (seqZ 0 ((7 + 1) * 2))
      (Z.land 4095 w0 :: w1 :: w2 :: w3 :: w4 :: w5 :: w6 :: 0 :: post) 0
    = Some (fold_left step_low
              (mjoin (word_bytes <$> [Z.land 4095 w0; w1; w2; w3; w4; w5; w6; 0]))
              0)).
  { exact (crc_loop_fold [Z.land 4095 w0; w1; w2; w3; w4; w5; w6; 0] [] post 0). }
  rewrite Hloop, bind_Some.
  rewrite store_Some by (simpl; lia). rewrite bind_Some.
  rewrite H3. unfold crc4.
  assert (Hmsg :
    crc_message (take 7 (w0 :: w1 :: w2 :: w3 :: w4 :: w5 :: w6 :: w7 :: post))
    = mjoin (word_bytes <$> [Z.land 4095 w0; w1; w2; w3; w4; w5; w6; 0]))
    by reflexivity.
  rewrite Hmsg. reflexivity.
Qed.

(** ** The checksum is linear over XOR *)

Lemma step_low_lxor (r1 r2 b1 b2 : Z) :
  step_low (Z.lxor r1 r2) (Z.lxor b1 b2)
  = Z.lxor (step_low r1 b1) (step_low r2 b2).
Proof.
  unfold step_low. rewrite <- crc_bits_lxor. f_equal.
  rewrite !Z.lxor_assoc. f_equal.
  rewrite <- !Z.lxor_assoc. f_equal. apply Z.lxor_comm.
Qed.

Lemma fold_step_low_lxor (bs1 bs2 : list Z) (r1 r2 : Z) :
  length bs1 = length bs2 ->
  fold_left step_low (zip_with Z.lxor bs1 bs2) (Z.lxor r1 r2)
  = Z.lxor (fold_left step_low bs1 r1) (fold_left step_low bs2 r2).
Proof.
  revert bs2 r1 r2.
  induction bs1 as [|b1 bs1 IH]; intros [|b2 bs2] r1 r2 Hlen;
    simpl in Hlen; try discriminate; [reflexivity|].
  cbn [zip_with fold_left]. rewrite step_low_lxor.
  apply IH. congruence.
Qed.

Lemma word_bytes_lxor (w e : Z) :
  word_bytes (Z.lxor w e) = zip_with Z.lxor (word_bytes w) (word_bytes e).
Proof.
  unfold word_bytes. cbn [zip_with]. rewrite Z.shiftr_lxor. do 2 f_equal.
  apply Z.bits_inj'. intros n _.
  rewrite !Z.lxor_spec, !Z.land_spec, Z.lxor_spec.
  destruct (Z.testbit 255 n); rewrite ?andb_true_r, ?andb_false_r; reflexivity.
Qed.

Lemma bytes_lxor (ws es : list Z) :
  length ws = length es ->
  mjoin (word_bytes <$> zip_with Z.lxor ws es)
  = zip_with Z.lxor (mjoin (word_bytes <$> ws)) (mjoin (word_bytes <$> es)).
Proof.
  revert es. induction ws as [|w ws IH]; intros [|e es] Hlen;
    simpl in Hlen; try discriminate; [reflexivity|].
  cbn [zip_with fmap list_fmap mjoin list_join].
  rewrite word_bytes_lxor, IH by congruence.
  unfold word_bytes. reflexivity.
Qed.

Lemma land_lxor_mask (m w e : Z) :
  Z.land m (Z.lxor w e) = Z.lxor (Z.land m w) (Z.land m e).
Proof.
  apply Z.bits_inj'. intros n _.
  rewrite !Z.lxor_spec, !Z.land_spec, Z.lxor_spec.
  destruct (Z.testbit m n); reflexivity.
Qed.

Lemma crc_message_lxor (ws es : list Z) :
  length ws = length es ->
  crc_message (zip_with Z.lxor ws es)
  = zip_with Z.lxor (crc_message ws) (crc_message es).
Proof.
  intros Hlen. unfold crc_message.
  rewrite <- bytes_lxor.
  2:{ rewrite !length_app, !length_alter. simpl. congruence. }
  do 2 f_equal.
  destruct ws as [|w ws], es as [|e es]; simpl in Hlen; try discriminate;
    [reflexivity|].
  cbn [alter list_alter zip_with app]. rewrite land_lxor_mask. f_equal.
  rewrite zip_with_app by congruence. reflexivity.
Qed.

Lemma length_crc_message (ws : list Z) :
  length (crc_message ws) = (2 * (length ws + 1))%nat.
Proof.
  unfold crc_message.
  assert (H : forall l : list Z,
             length (mjoin (word_bytes <$> l)) = (2 * length l)%nat).
  { induction l as [|x l IH]; [reflexivity|].
    change (length (mjoin (word_bytes <$> x :: l)))
      with (S (S (length (mjoin (word_bytes <$> l))))).
    rewrite IH. simpl length. lia. }
  rewrite H, length_app, length_alter. reflexivity.
Qed.

Lemma crc4_lxor (ws es : list Z) :
  length ws = length es ->
  crc4 (zip_with Z.lxor ws es) = Z.lxor (crc4 ws) (crc4 es).
Proof.
  intros Hlen. unfold crc4.
  rewrite crc_message_lxor by exact Hlen.
  change 0 with (Z.lxor 0 0) at 1.
  rewrite fold_step_low_lxor by (rewrite !length_crc_message; congruence).
  apply Z.shiftr_lxor.
Qed.

(** A flip is the XOR with a vector that is zero but for one bit. *)
Lemma flip_bit_lxor (i j : nat) (words : list Z) :
  length words = 7%nat -> (i < 7)%nat ->
  flip_bit i j words
  = zip_with Z.lxor words (<[i:=2 ^ Z.of_nat j]> (replicate 7 0)).
Proof.
  intros Hlen Hi.
  destruct words as [|w0 [|w1 [|w2 [|w3 [|w4 [|w5 [|w6 [|w7 post]]]]]]]];
    simpl in Hlen; try discriminate.
  unfold flip_bit.
  do 7 (destruct i as [|i];
        [cbn [alter list_alter replicate insert list_insert zip_with];
         rewrite ?Z.lxor_0_r; reflexivity|]).
  lia.
Qed.

(** Every bit outside the checksum nibble has a non-zero checksum of its
    own. *)
Lemma crc4_single_bit (i j : nat) :
  (i < 7)%nat -> (j < 16)%nat -> ~ (i = 0%nat /\ (12 <= j)%nat) ->
  crc4 (<[i:=2 ^ Z.of_nat j]> (replicate 7 0)) <> 0.
Proof.
  intros Hi Hj Hdata.
  do 7 (destruct i as [|i];
        [do 16 (destruct j as [|j];
                [first [ vm_compute; discriminate | exfalso; apply Hdata; lia ]|]);
         lia|]).
  lia.
Qed.

Lemma crc_nibble_range (w : Z) : 0 <= Z.shiftr (Z.land w 0xF000) 12 < 16.
Proof.
  rewrite Z.shiftr_land. change (Z.shiftr 61440 12) with (Z.ones 4).
  rewrite Z.land_ones by lia. apply Z.mod_pos_bound. lia.
Qed.

Lemma crc_nibble_eq (w : Z) : crc_nibble w = Z.shiftr (Z.land w 0xF000) 12.
Proof.
  unfold crc_nibble, to_uint8. apply Z.mod_small.
  pose proof (crc_nibble_range w). lia.
Qed.

Lemma lxor_neq (a e : Z) : e <> 0 -> Z.lxor a e <> a.
Proof.
  intros He Heq. apply He.
  rewrite <- (Z.lxor_0_l e), <- (Z.lxor_nilpotent a), Z.lxor_assoc, Heq.
  reflexivity.
Qed.

(** Word 0 after a flip, and the nibble stored in it. *)
Lemma stored_crc_flip (i j : nat) (words : list Z) :
  length words = 7%nat -> (i < 7)%nat -> (j < 16)%nat ->
  stored_crc (flip_bit i j words)
  = if bool_decide (i = 0%nat /\ (12 <= j)%nat)
    then Z.lxor (stored_crc words) (2 ^ (Z.of_nat j - 12))
    else stored_crc words.
Proof.
  intros Hlen Hi Hj.
  destruct words as [|w0 words]; simpl in Hlen; try discriminate.
  unfold stored_crc, flip_bit. rewrite !crc_nibble_eq.
  destruct i as [|i].
  - cbn [alter list_alter lookup_total list_lookup_total].
    rewrite Z.land_comm, land_lxor_mask, Z.shiftr_lxor, (Z.land_comm _ w0).
    do 16 (destruct j as [|j];
           [first [ rewrite bool_decide_false by lia; apply Z.lxor_0_r
                  | rewrite bool_decide_true by lia; reflexivity ]|]).
    lia.
  - rewrite bool_decide_false by lia. reflexivity.
Qed.

(** ** Compensation: no intermediate leaves its C type *)

Lemma to_int32_small (z : Z) : - 2 ^ 31 <= z < 2 ^ 31 -> to_int32 z = z.
Proof. intros H. unfold to_int32. rewrite Z.mod_small by lia. lia. Qed.

Lemma to_int64_small (z : Z) : - 2 ^ 63 <= z < 2 ^ 63 -> to_int64 z = z.
Proof. intros H. unfold to_int64. rewrite Z.mod_small by lia. lia. Qed.

Lemma shiftr_bounds (a n lo hi : Z) :
  0 <= n -> lo * 2 ^ n <= a < hi * 2 ^ n -> lo <= Z.shiftr a n < hi.
Proof.
  intros Hn [Hlo Hhi]. rewrite Z.shiftr_div_pow2 by exact Hn.
  assert (Hp : 0 < 2 ^ n) by (apply Z.pow_pos_nonneg; lia).
  split.
  - apply Z.div_le_lower_bound; lia.
  - apply Z.div_lt_upper_bound; lia.
Qed.

Lemma compensate_spec (d : Adafruit_MS8607) (raw_temp raw_pressure : Z) :
  calibrated d -> is_uint24 raw_temp -> is_uint24 raw_pressure ->
  compensate d raw_temp raw_pressure = spec_of d raw_temp raw_pressure.
Proof.
  unfold calibrated, is_uint16, is_uint24, spec_of.
  intros (Hc1 & Hc2 & Hc3 & Hc4 & Hc5 & Hc6) Hrt Hrp.
  unfold compensate, spec_compensate.
  destruct d as [c1 c2 c3 c4 c5 c6 osr t p i1 i2]; cbn [press_sens press_offset
    press_sens_temp_coeff press_offset_temp_coeff ref_temp temp_temp_coeff] in *.
  (* dT *)
  assert (Hsh5 : Z.shiftl c5 8 = c5 * 256)
    by (rewrite Z.shiftl_mul_pow2 by lia; reflexivity).
  assert (EdT : i32_sub (to_int32 raw_temp) (i32_shl (to_int32 c5) 8)
                = raw_temp - Z.shiftl c5 8).
  { unfold i32_sub, i32_shl. rewrite (to_int32_small raw_temp) by lia.
    rewrite (to_int32_small c5) by lia. rewrite Hsh5.
    rewrite (to_int32_small (c5 * 256)) by lia. apply to_int32_small. lia. }
  cbv zeta. rewrite EdT. clear EdT.
  set (dT := raw_temp - Z.shiftl c5 8).
  assert (HdT : - 2 ^ 24 < dT < 2 ^ 24) by (unfold dT; rewrite Hsh5; lia).
  rewrite (to_int64_small dT) by lia.
  (* TEMP *)
  assert (Hprod : - 2 ^ 40 <= dT * c6 < 2 ^ 40) by nia.
  assert (Hq : - 2 ^ 17 <= Z.shiftr (dT * c6) 23 < 2 ^ 17)
    by (apply shiftr_bounds; lia).
  assert (ETEMP :
    to_int32 (i64_add 2000 (i64_shr (i64_mul dT (to_int64 c6)) 23))
    = 2000 + Z.shiftr (dT * c6) 23).
  { unfold i64_add, i64_shr, i64_mul. rewrite (to_int64_small c6) by lia.
    rewrite (to_int64_small (dT * c6)) by lia.
    rewrite to_int64_small by lia. apply to_int32_small. lia. }
  rewrite ETEMP. clear ETEMP.
  set (TEMP := 2000 + Z.shiftr (dT * c6) 23).
  assert (HTEMP : - 2 ^ 17 <= TEMP - 2000 < 2 ^ 17) by (unfold TEMP; lia).
  rewrite (to_int64_small TEMP) by lia.
  (* second order *)
  assert (Hsq : 0 <= dT * dT < 2 ^ 48) by nia.
  assert (ET2a : i64_shr (i64_mul 3 (i64_mul dT dT)) 33 = Z.shiftr (3 * dT ^ 2) 33).
  { unfold i64_shr, i64_mul. rewrite Z.pow_2_r.
    rewrite (to_int64_small (dT * dT)) by lia. rewrite to_int64_small by lia.
    reflexivity. }
  assert (ET2b : i64_shr (i64_mul 5 (i64_mul dT dT)) 38 = Z.shiftr (5 * dT ^ 2) 38).
  { unfold i64_shr, i64_mul. rewrite Z.pow_2_r.
    rewrite (to_int64_small (dT * dT)) by lia. rewrite to_int64_small by lia.
    reflexivity. }
  rewrite ET2a, ET2b. clear ET2a ET2b.
  set (a := TEMP - 2000) in *.
  assert (Ha2 : 0 <= a * a <= 2 ^ 34) by nia.
  assert (Equad : forall k : Z, 0 <= k <= 61 ->
            i64_div (i64_mul (i64_mul k (i64_sub TEMP 2000)) (i64_sub TEMP 2000)) 16
            = k * a ^ 2 / 16).
  { intros k Hk. unfold i64_div, i64_mul, i64_sub. fold a.
    rewrite (to_int64_small a) by lia.
    assert (- 2 ^ 23 <= k * a <= 2 ^ 23) by nia.
    rewrite (to_int64_small (k * a)) by lia.
    assert (Hka : k * a * a = k * (a * a)) by ring.
    assert (0 <= k * (a * a) <= 61 * 2 ^ 34) by nia.
    rewrite (to_int64_small (k * a * a)) by lia.
    rewrite Z.pow_2_r, Hka.
    rewrite Z.quot_div_nonneg by lia.
    apply to_int64_small.
    assert (0 <= k * (a * a) / 16 <= k * (a * a)).
    { split; [apply Z.div_pos; lia|]. apply Z.div_le_upper_bound; lia. }
    lia. }
  rewrite (Equad 61), (Equad 29) by lia. clear Equad.
  set (OFF2a := 61 * a ^ 2 / 16). set (SENS2a := 29 * a ^ 2 / 16).
  assert (HOFF2a : 0 <= OFF2a <= 61 * 2 ^ 30).
  { unfold OFF2a. rewrite Z.pow_2_r. split; [apply Z.div_pos; lia|].
    apply Z.div_le_upper_bound; lia. }
  assert (HSENS2a : 0 <= SENS2a <= 29 * 2 ^ 30).
  { unfold SENS2a. rewrite Z.pow_2_r. split; [apply Z.div_pos; lia|].
    apply Z.div_le_upper_bound; lia. }
  set (b := TEMP + 1500).
  assert (Hb : - 2 ^ 17 <= b < 2 ^ 18) by (unfold b; lia).
  assert (Hb2 : 0 <= b * b <= 2 ^ 36) by nia.
  assert (Ecold : forall k x : Z, 0 <= k <= 17 -> 0 <= x <= 61 * 2 ^ 30 ->
            i64_add x (i64_mul (i64_mul k (i64_add TEMP 1500)) (i64_add TEMP 1500))
            = x + k * b ^ 2).
  { intros k x Hk Hx. unfold i64_add, i64_mul. fold b.
    rewrite (to_int64_small b) by lia.
    assert (- 2 ^ 23 <= k * b <= 2 ^ 23) by nia.
    rewrite (to_int64_small (k * b)) by lia.
    assert (Hkb : k * b * b = k * (b * b)) by ring.
    assert (0 <= k * (b * b) <= 17 * 2 ^ 36) by nia.
    rewrite (to_int64_small (k * b * b)) by lia.
    rewrite Z.pow_2_r, Hkb. apply to_int64_small. lia. }
  rewrite (Ecold 17 OFF2a), (Ecold 9 SENS2a) by lia. clear Ecold.
  (* OFF, SENS and P, for any second-order terms in range *)
  assert (Hsh2 : Z.shiftl c2 17 = c2 * 2 ^ 17) by (apply Z.shiftl_mul_pow2; lia).
  assert (Hsh1 : Z.shiftl c1 16 = c1 * 2 ^ 16) by (apply Z.shiftl_mul_pow2; lia).
  assert (Hp4 : - 2 ^ 40 <= c4 * dT < 2 ^ 40) by nia.
  assert (Hp3 : - 2 ^ 40 <= c3 * dT < 2 ^ 40) by nia.
  assert (Hq4 : - 2 ^ 34 <= Z.shiftr (c4 * dT) 6 < 2 ^ 34)
    by (apply shiftr_bounds; lia).
  assert (Hq3 : - 2 ^ 33 <= Z.shiftr (c3 * dT) 7 < 2 ^ 33)
    by (apply shiftr_bounds; lia).
  assert (Etail : forall OFF2 SENS2 : Z,
    0 <= OFF2 <= 2 ^ 42 -> 0 <= SENS2 <= 2 ^ 38 ->
    i64_shr
      (i64_sub
         (i64_shr
            (i64_mul (to_int64 raw_pressure)
               (i64_sub
                  (i64_add (i64_shl (to_int64 c1) 16)
                     (i64_shr (i64_mul (to_int64 c3) dT) 7)) SENS2)) 21)
         (i64_sub
            (i64_add (i64_shl (to_int64 c2) 17)
               (i64_shr (i64_mul (to_int64 c4) dT) 6)) OFF2)) 15
    = Z.shiftr
        (Z.shiftr
           (raw_pressure
            * (Z.shiftl c1 16 + Z.shiftr (c3 * dT) 7 - SENS2)) 21
         - (Z.shiftl c2 17 + Z.shiftr (c4 * dT) 6 - OFF2)) 15
    /\ i64_sub
         (i64_add (i64_shl (to_int64 c2) 17)
            (i64_shr (i64_mul (to_int64 c4) dT) 6)) OFF2
       = Z.shiftl c2 17 + Z.shiftr (c4 * dT) 6 - OFF2
    /\ i64_sub
         (i64_add (i64_shl (to_int64 c1) 16)
            (i64_shr (i64_mul (to_int64 c3) dT) 7)) SENS2
       = Z.shiftl c1 16 + Z.shiftr (c3 * dT) 7 - SENS2).
  { intros OFF2 SENS2 HO HS.
    unfold i64_shr, i64_sub, i64_add, i64_mul, i64_shl.
    rewrite (to_int64_small c1), (to_int64_small c2), (to_int64_small c3),
      (to_int64_small c4), (to_int64_small raw_pressure) by lia.
    rewrite Hsh1, Hsh2.
    rewrite (to_int64_small (c1 * 2 ^ 16)), (to_int64_small (c2 * 2 ^ 17)) by lia.
    rewrite (to_int64_small (c3 * dT)), (to_int64_small (c4 * dT)) by lia.
    rewrite (to_int64_small (c1 * 2 ^ 16 + _)) by lia.
    rewrite (to_int64_small (c2 * 2 ^ 17 + _)) by lia.
    set (SENS := c1 * 2 ^ 16 + Z.shiftr (c3 * dT) 7 - SENS2).
    set (OFF := c2 * 2 ^ 17 + Z.shiftr (c4 * dT) 6 - OFF2).
    assert (HSENS : - 2 ^ 39 <= SENS < 2 ^ 39) by (unfold SENS; lia).
    assert (HOFF : - 2 ^ 43 <= OFF < 2 ^ 43) by (unfold OFF; lia).
    rewrite (to_int64_small SENS), (to_int64_small OFF) by lia.
    assert (Hrs : - 2 ^ 63 <= raw_pressure * SENS < 2 ^ 63) by nia.
    rewrite (to_int64_small (raw_pressure * SENS)) by lia.
    assert (Hq21 : - 2 ^ 42 <= Z.shiftr (raw_pressure * SENS) 21 < 2 ^ 42)
      by (apply shiftr_bounds; lia).
    rewrite to_int64_small by lia. auto. }
  destruct (TEMP <? 2000) eqn:Ecmp.
  - destruct (TEMP <? -1500) eqn:Ecmp2.
    + assert (H17 : 0 <= 17 * b ^ 2 <= 17 * 2 ^ 36) by (rewrite Z.pow_2_r; lia).
      assert (H9 : 0 <= 9 * b ^ 2 <= 9 * 2 ^ 36) by (rewrite Z.pow_2_r; lia).
      destruct (Etail (OFF2a + 17 * b ^ 2) (SENS2a + 9 * b ^ 2))
        as (EP & EO & ES); [lia | lia |].
      rewrite EP, EO, ES. reflexivity.
    + destruct (Etail OFF2a SENS2a) as (EP & EO & ES); [lia | lia |].
      rewrite EP, EO, ES, !Z.add_0_r. reflexivity.
  - destruct (Etail 0 0) as (EP & EO & ES); [lia | lia |].
    rewrite EP, EO, ES. reflexivity.
Qed.

(** ** The bus *)

Lemma M_bind_eq {A B : Type} (m : M A) (f : A -> M B) (s : State) :
  (m ≫= f) s = match m s with
               | Some (a, s') => f a s'
               | None => None
               end.
Proof. reflexivity. Qed.

Lemma hd_tl_nth (l : list reply) :
  hd Nak l = nth 0 l Nak /\ hd Nak (tl l) = nth 1 l Nak /\
  hd Nak (tl (tl l)) = nth 2 l Nak /\ hd Nak (tl (tl (tl l))) = nth 3 l Nak.
Proof. destruct l as [|r1 [|r2 [|r3 [|r4 l]]]]; repeat split. Qed.

(** [sample] never fails; it leaves the object alone, consumes four replies
    and logs two conversions, temperature first. *)
Lemma sample_eq (h : Header) (status : Z) (buffer : Z * Z * Z) (s : State) :
  let d := this s in
  let r1 := nth 0 (bus_in s) Nak in
  let r2 := nth 1 (bus_in s) Nak in
  let r3 := nth 2 (bus_in s) Nak in
  let r4 := nth 3 (bus_in s) Nak in
  let cmd_t :=
    to_uint8 (Z.lor (to_uint8 (psensor_resolution_osr d * 2))
                (PSENSOR_START_TEMPERATURE_ADC_CONVERSION h)) in
  let cmd_p :=
    to_uint8 (Z.lor (to_uint8 (psensor_resolution_osr d * 2))
                (PSENSOR_START_PRESSURE_ADC_CONVERSION h)) in
  let adc := to_uint8 (PSENSOR_READ_ADC h) in
  let buffer_t :=
    match received r2 3 with
    | Some [b0; b1; b2] => (b0, b1, b2)
    | _ => (adc, snd (fst buffer), snd buffer)
    end in
  let buffer_p :=
    match received r4 3 with
    | Some [b0; b1; b2] => (b0, b1, b2)
    | _ => (adc, snd (fst buffer_t), snd buffer_t)
    end in
  let status1 := to_uint8 (Z.lor status (of_bool (acked r1))) in
  let status2 :=
    to_uint8 (Z.lor status1 (of_bool (bool_decide (is_Some (received r2 3))))) in
  let status3 := to_uint8 (Z.lor status2 (of_bool (acked r3))) in
  let status4 :=
    to_uint8 (Z.lor status3 (of_bool (bool_decide (is_Some (received r4 3))))) in
  sample h status buffer s
  = Some ((status4, adc_value buffer_t, adc_value buffer_p),
          {| this := d;
             bus_in := tl (tl (tl (tl (bus_in s))));
             bus_log :=
               bus_log s ++ [I2CWrite [cmd_t]; DelayMs 18;
                             I2CWriteThenRead [adc] 3;
                             I2CWrite [cmd_p]; DelayMs 18;
                             I2CWriteThenRead [adc] 3];
             clock := clock s + 18 + 18 |}).
Proof.
  destruct s as [d l lg ck].
  destruct l as [|r1 [|r2 [|r3 [|r4 l]]]]; cbn [this bus_in nth]; intros;
    cbv beta iota zeta delta [sample mbind M_bind mret M_ret get_this i2c_write
      i2c_write_then_read transact delay advance this bus_in bus_log clock
      hd tl];
    rewrite <- !app_assoc; reflexivity.
Qed.

Lemma read_sample (h : Header) (status : Z) (buffer : Z * Z * Z) (s s1 : State)
    (st rt rp : Z) :
  sample h status buffer s = Some ((st, rt, rp), s1) ->
  _read h status buffer s
  = Some (to_bool st,
          with_this s1 (store_reading (this s1) (compensate (this s1) rt rp))).
Proof. intros H. unfold _read. rewrite M_bind_eq, H. reflexivity. Qed.

Lemma read_returns (h : Header) (status : Z) (buffer : Z * Z * Z) (s : State) :
  exists b s', _read h status buffer s = Some (b, s').
Proof.
  pose proof (sample_eq h status buffer s) as Hs. cbv zeta in Hs.
  eexists _, _. exact (read_sample _ _ _ _ _ _ _ _ Hs).
Qed.

Lemma getEvent_read (h : Header) (pressure temp humidity : bool)
    (status : Z) (buffer : Z * Z * Z) (s s1 : State) (b : bool) :
  _read h status buffer s = Some (b, s1) ->
  getEvent h pressure temp humidity status buffer s
  = Some ((true,
           if pressure
           then Some (fillPressureEvent h (this s1) (to_uint32 (clock s)))
           else None,
           if temp
           then Some (fillTempEvent h (this s1) (to_uint32 (clock s)))
           else None), s1).
Proof.
  intros H. unfold getEvent. rewrite M_bind_eq. unfold millis at 1.
  cbv beta iota. rewrite M_bind_eq, H. reflexivity.
Qed.

(** ** The PROM loop *)

Lemma i2c_write_then_read_eq (bytes : list Z) (rlen : nat) (s : State) :
  i2c_write_then_read bytes rlen s
  = Some (received (hd Nak (bus_in s)) rlen,
          advance s (I2CWriteThenRead bytes rlen)).
Proof. reflexivity. Qed.

Lemma lift_Some {A : Type} (a : A) (s : State) : lift (Some a) s = Some (a, s).
Proof. reflexivity. Qed.

Lemma prom_loop_cons (h : Header) (i : Z) (idx : list Z) (tmp_buffer : Z * Z)
    (buffer : list Z) (s : State) :
  (Z.to_nat i < length buffer)%nat ->
  let tmp0 := to_uint8 (PROM_ADDRESS_READ_ADDRESS_0 h + to_uint8 (2 * i)) in
  let tmp_buffer' :=
    match received (hd Nak (bus_in s)) 2 with
    | Some [b0; b1] => (b0, b1)
    | _ => (tmp0, snd tmp_buffer)
    end in
  prom_loop h (i :: idx) tmp_buffer buffer s
  = prom_loop h idx tmp_buffer'
      (<[Z.to_nat i := to_uint16 (Z.lor (to_uint16 (Z.shiftl (fst tmp_buffer') 8))
                                     (snd tmp_buffer'))]> buffer)
      (advance s (I2CWriteThenRead [tmp0] 2)).
Proof.
  intros Hi tmp0 tmp_buffer'.
  cbn [prom_loop]. cbv zeta. cbn [fst snd].
  rewrite M_bind_eq, i2c_write_then_read_eq. fold tmp0. fold tmp_buffer'.
  rewrite M_bind_eq, store_Some, lift_Some by exact Hi.
  rewrite M_bind_eq, list_lookup_insert_eq, lift_Some by exact Hi.
  rewrite M_bind_eq, store_Some, lift_Some by (rewrite length_insert; exact Hi).
  rewrite list_insert_insert_eq. reflexivity.
Qed.

Lemma prom_loop_total (h : Header) (idx : list Z) (tmp_buffer : Z * Z)
    (buffer : list Z) (s : State) :
  Forall (fun i => (Z.to_nat i < length buffer)%nat) idx ->
  exists words s1,
    prom_loop h idx tmp_buffer buffer s = Some (words, s1)
    /\ length words = length buffer /\ this s1 = this s.
Proof.
  revert tmp_buffer buffer s.
  induction idx as [|i idx IH]; intros tmp_buffer buffer s Hidx.
  - exists buffer, s. repeat split.
  - inversion Hidx as [|? ? Hi Hrest]; subst.
    rewrite prom_loop_cons by exact Hi.
    edestruct IH as (words & s1 & Hloop & Hlen & Hthis);
      [| exists words, s1; split; [exact Hloop|] ].
    + rewrite length_insert. exact Hrest.
    + rewrite Hlen, length_insert, Hthis. split; reflexivity.
Qed.

(** [_init] once the loop has filled the buffer: the verdict is the
    comparison of [crc4] with the stored nibble, and the object is written
    only when they agree. *)
Lemma init_eq (h : Header) (sensor_id : Z) (tmp_buffer : Z * Z)
    (buffer words : list Z) (s s1 : State) :
  prom_loop h (seqZ 0 7) tmp_buffer buffer s = Some (words, s1) ->
  (8 <= length words)%nat ->
  _init h sensor_id tmp_buffer buffer s
  = if crc4 (take 7 words) =? stored_crc words
    then Some (true,
               with_this s1
                 (set_calibration h (this s1)
                    (words !!! 1%nat) (words !!! 2%nat) (words !!! 3%nat)
                    (words !!! 4%nat) (words !!! 5%nat) (words !!! 6%nat)))
    else Some (false, s1).
Proof.
  intros Hloop Hlen. unfold _init. rewrite M_bind_eq, Hloop.
  assert (Hlk : forall i : nat, (i < 8)%nat -> words !! i = Some (words !!! i)).
  { intros i Hi. apply list_lookup_lookup_total_lt. lia. }
  rewrite M_bind_eq, (Hlk 0%nat), lift_Some by lia.
  rewrite M_bind_eq, crc_check_eq, lift_Some by exact Hlen.
  unfold stored_crc.
  destruct (crc4 (take 7 words) =? crc_nibble (words !!! 0%nat)); cbn [negb];
    [|reflexivity].
  assert (Hin : forall i : nat, (i < 7)%nat ->
            <[7%nat:=0]> words !! i = Some (words !!! i)).
  { intros i Hi. rewrite list_lookup_insert_ne by lia. apply Hlk. lia. }
  rewrite M_bind_eq, (Hin 1%nat), lift_Some by lia.
  rewrite M_bind_eq, (Hin 2%nat), lift_Some by lia.
  rewrite M_bind_eq, (Hin 3%nat), lift_Some by lia.
  rewrite M_bind_eq, (Hin 4%nat), lift_Some by lia.
  rewrite M_bind_eq, (Hin 5%nat), lift_Some by lia.
  rewrite M_bind_eq, (Hin 6%nat), lift_Some by lia.
  reflexivity.
Qed.

(** ** The PROM loop on a bus that answers *)

Lemma to_uint8_small (z : Z) : is_uint8 z -> to_uint8 z = z.
Proof. unfold is_uint8, to_uint8. intros H. apply Z.mod_small. exact H. Qed.

Lemma to_uint8_range (z : Z) : is_uint8 (to_uint8 z).
Proof. unfold is_uint8, to_uint8. apply Z.mod_pos_bound. lia. Qed.

Lemma lor_disjoint (hi lo n : Z) :
  0 <= n -> 0 <= lo < 2 ^ n -> Z.lor (hi * 2 ^ n) lo = hi * 2 ^ n + lo.
Proof.
  intros Hn Hlo.
  assert (Hland : Z.land (hi * 2 ^ n) lo = 0).
  { apply Z.bits_inj'. intros k Hk. rewrite Z.land_spec, Z.bits_0.
    destruct (Z.lt_ge_cases k n) as [Hlt | Hge].
    - rewrite Z.mul_pow2_bits_low by exact Hlt. reflexivity.
    - rewrite <- (Z.mod_small lo (2 ^ n)) by exact Hlo.
      rewrite Z.mod_pow2_bits_high by lia. apply andb_false_r. }
  rewrite Z.add_nocarry_lxor by exact Hland. symmetry.
  apply Z.lxor_lor. exact Hland.
Qed.

(** A 16-bit word sent as two bytes is assembled again as itself. *)
Lemma word_reassemble (w : Z) :
  is_uint16 w ->
  to_uint16 (Z.lor (to_uint16 (Z.shiftl (to_uint8 (Z.shiftr w 8)) 8))
                   (to_uint8 (Z.land w 0xFF))) = w.
Proof.
  unfold is_uint16. intros Hw.
  rewrite Z.shiftr_div_pow2 by lia.
  change 255 with (Z.ones 8). rewrite Z.land_ones by lia.
  assert (Hq : 0 <= w / 2 ^ 8 < 2 ^ 8).
  { split; [apply Z.div_pos; lia | apply Z.div_lt_upper_bound; lia]. }
  assert (Hr : 0 <= w mod 2 ^ 8 < 2 ^ 8) by (apply Z.mod_pos_bound; lia).
  rewrite (to_uint8_small (w / 2 ^ 8)) by exact Hq.
  rewrite (to_uint8_small (w mod 2 ^ 8)) by exact Hr.
  rewrite Z.shiftl_mul_pow2 by lia.
  unfold to_uint16. rewrite (Z.mod_small (w / 2 ^ 8 * 2 ^ 8)) by lia.
  rewrite lor_disjoint by lia.
  rewrite Z.mod_small by lia.
  rewrite (Z.div_mod w (2 ^ 8)) at 3 by lia. lia.
Qed.

Lemma received_2 (b0 b1 : Z) :
  received (Ack [b0; b1]) 2 = Some [to_uint8 b0; to_uint8 b1].
Proof. reflexivity. Qed.

Lemma prom_loop_reads (h : Header) (mid : list Z) :
  forall (pre old post : list Z) (tmp_buffer : Z * Z) (s : State)
    (rest : list reply),
    length old = length mid -> Forall is_uint16 mid ->
    bus_in s = prom_replies mid ++ rest ->
    exists s1,
      prom_loop h (seqZ (Z.of_nat (length pre)) (Z.of_nat (length mid)))
        tmp_buffer (pre ++ old ++ post) s
      = Some (pre ++ mid ++ post, s1)
      /\ this s1 = this s /\ bus_in s1 = rest.
Proof.
  induction mid as [|w mid IH];
    intros pre [|o old] post tmp_buffer s rest Hlen Hwords Hbus;
    try discriminate.
  - exists s. rewrite seqZ_nil by (simpl; lia). repeat split. exact Hbus.
  - inversion Hwords as [|? ? Hw Hmid]; subst.
    rewrite seqZ_cons by (simpl; lia).
    rewrite prom_loop_cons
      by (rewrite Nat2Z.id, length_app; simpl; lia).
    rewrite Hbus. unfold prom_replies. rewrite fmap_cons, <- app_comm_cons.
    cbn [hd]. rewrite received_2. cbn [fst snd].
    rewrite word_reassemble by exact Hw.
    rewrite Nat2Z.id, insert_app_r_alt, Nat.sub_diag by lia.
    rewrite <- app_comm_cons. cbn [insert list_insert].
    destruct (IH (pre ++ [w]) old post
                (to_uint8 (Z.shiftr w 8), to_uint8 (Z.land w 255))
                (advance s (I2CWriteThenRead
                   [to_uint8 (PROM_ADDRESS_READ_ADDRESS_0 h
                              + to_uint8 (2 * Z.of_nat (length pre)))] 2))
                rest)
      as (s1 & Hloop & Hthis & Hrest).
    + simpl in Hlen. lia.
    + exact Hmid.
    + cbn [advance bus_in]. rewrite Hbus. reflexivity.
    + exists s1. split; [|split; [exact Hthis | exact Hrest]].
      rewrite <- !(app_assoc pre [w]), length_app in Hloop.
      cbn [app] in Hloop.
      replace (Z.succ (Z.of_nat (length pre)))
        with (Z.of_nat (length pre + length [w])) by (simpl length; lia).
      replace (Z.pred (Z.of_nat (length (w :: mid))))
        with (Z.of_nat (length mid)) by (simpl length; lia).
      exact Hloop.
Qed.

(** [_init] on a device that answers every PROM read with the words of a
    calibration vector: the verdict is the CRC relation of the vector. *)
Lemma init_on_prom (h : Header) (sensor_id : Z) (tmp_buffer : Z * Z)
    (buffer words : list Z) (s : State) (rest : list reply) :
  length buffer = 8%nat -> length words = 7%nat -> Forall is_uint16 words ->
  bus_in s = prom_replies words ++ rest ->
  exists s',
    _init h sensor_id tmp_buffer buffer s
    = Some (crc4 words =? stored_crc words, s').
Proof.
  intros Hbuf Hlen Hwords Hbus.
  destruct (prom_loop_reads h words [] (take 7 buffer) (drop 7 buffer)
              tmp_buffer s rest) as (s1 & Hloop & _ & _);
    [rewrite length_take; lia | exact Hwords | exact Hbus |].
  rewrite Hlen in Hloop. cbn [app length] in Hloop.
  rewrite take_drop in Hloop.
  rewrite (init_eq h sensor_id tmp_buffer buffer _ s s1 Hloop)
    by (rewrite length_app, length_drop; lia).
  assert (Htake : take 7 (words ++ drop 7 buffer) = words).
  { rewrite <- Hlen. apply take_app_length. }
  assert (Hst : stored_crc (words ++ drop 7 buffer) = stored_crc words).
  { unfold stored_crc. destruct words; [discriminate | reflexivity]. }
  rewrite Htake, Hst.
  destruct (crc4 words =? stored_crc words); eexists; reflexivity.
Qed.

Lemma flip_bit_uint16 (i j : nat) (words : list Z) :
  (j < 16)%nat -> Forall is_uint16 words -> Forall is_uint16 (flip_bit i j words).
Proof.
  intros Hj Hwords. unfold flip_bit. apply Forall_alter; [exact Hwords|].
  intros w _ Hw. unfold is_uint16 in *.
  assert (Hp : 0 <= 2 ^ Z.of_nat j < 2 ^ 16).
  { split; [apply Z.pow_nonneg; lia | apply Z.pow_lt_mono_r; lia]. }
  rewrite <- (Z.mod_small w (2 ^ 16)) by exact Hw.
  rewrite <- (Z.mod_small (2 ^ Z.of_nat j) (2 ^ 16)) by exact Hp.
  fold (to_uint16 w). fold (to_uint16 (2 ^ Z.of_nat j)).
  rewrite <- to_uint16_lxor. unfold to_uint16. apply Z.mod_pos_bound. lia.
Qed.

(** ** The checksum: what [_psensor_crc_check] computes *)

Lemma crc_check_short (n_prom : list Z) (crc : Z) :
  (length n_prom < 8)%nat -> _psensor_crc_check n_prom crc = None.
Proof.
  intros Hlen. unfold _psensor_crc_check. cbv zeta.
  destruct n_prom as [|w0 n_prom]; [reflexivity|].
  assert (H0 : (w0 :: n_prom) !! 0%nat = Some w0) by reflexivity.
  rewrite H0, bind_Some, store_None by lia. reflexivity.
Qed.

Lemma take_7_app (words : list Z) (slot : Z) :
  length words = 7%nat -> take 7 (words ++ [slot]) = words.
Proof. intros H. rewrite <- H. apply take_app_length. Qed.

Lemma insert_7_app (words : list Z) (slot : Z) :
  length words = 7%nat -> <[7%nat:=0]> (words ++ [slot]) = words ++ [0].
Proof.
  intros H.
  destruct words as [|w0 [|w1 [|w2 [|w3 [|w4 [|w5 [|w6 [|w7 post]]]]]]]];
    try discriminate.
  reflexivity.
Qed.

Lemma crc_check_words (words : list Z) (slot crc : Z) :
  length words = 7%nat ->
  _psensor_crc_check (words ++ [slot]) crc
  = Some (crc4 words =? crc, words ++ [0]).
Proof.
  intros H. rewrite crc_check_eq by (rewrite length_app; simpl; lia).
  rewrite take_7_app, insert_7_app by exact H. reflexivity.
Qed.

(** C2, as the specification states it, fails: for the calibration words
    [0, 0, 0, 0, 0, 0, 1] the computation that XORs each byte into the high
    byte of the remainder yields the nibble 6, so a call with [crc = 6] would
    have to return true; [_psensor_crc_check] returns false (its nibble is
    15). *)
Lemma crc_check_not_high_byte :
  spec_crc4_high [0; 0; 0; 0; 0; 0; 1] = 6
  /\ _psensor_crc_check [0; 0; 0; 0; 0; 0; 1; 0] 6
     = Some (false, [0; 0; 0; 0; 0; 0; 1; 0])
  /\ _psensor_crc_check [0; 0; 0; 0; 0; 0; 1; 0] 15
     = Some (true, [0; 0; 0; 0; 0; 0; 1; 0]).
Proof. repeat split; vm_compute; reflexivity. Qed.

(** C2, amended: for every array of 7 calibration words and a writable 8th
    slot and every [crc] argument, [_psensor_crc_check] returns true exactly
    when [crc] equals the nibble [crc4] of the 7 words: word 0 masked with
    0x0FFF, a synthetic 8th word 0, the 16 bytes (high byte then low byte of
    each word) each XORed into the LOW byte of a 16-bit remainder that starts
    at 0 and followed by 8 shift steps (shift left by 1, XOR with 0x3000 when
    the top bit was set), and the final remainder shifted right by 12. *)
Theorem crc_check_computes_crc4 (words : list Z) (slot crc : Z) :
  length words = 7%nat ->
  exists b n_prom',
    _psensor_crc_check (words ++ [slot]) crc = Some (b, n_prom')
    /\ (b = true <-> crc4 words = crc).
Proof.
  intros H. exists (crc4 words =? crc), (words ++ [0]).
  split; [apply crc_check_words; exact H|]. apply Z.eqb_eq.
Qed.

Lemma crc_check_computes_crc4_witness :
  exists b n_prom',
    _psensor_crc_check
      ([0x4000; 46372; 43981; 29059; 27842; 31553; 28175] ++ [77]) 4
    = Some (b, n_prom')
    /\ (b = true <->
        crc4 [0x4000; 46372; 43981; 29059; 27842; 31553; 28175] = 4).
Proof.
  apply (crc_check_computes_crc4
           [0x4000; 46372; 43981; 29059; 27842; 31553; 28175] 77 4).
  reflexivity.
Defined.

(** C10: after [_psensor_crc_check] returns, the caller's array is the
    array it passed with element 7 set to 0: element 0 has its original
    value again, elements 1 to 6 (and any beyond 7) are untouched.  The
    call is defined only for arrays of at least 8 elements, because
    element 7 is written. *)
Theorem crc_check_array_after (n_prom : list Z) (crc : Z) :
  snd <$> _psensor_crc_check n_prom crc
  = if decide (8 <= length n_prom)%nat
    then Some (<[7%nat:=0]> n_prom)
    else None.
Proof.
  destruct (decide (8 <= length n_prom)%nat) as [Hlen | Hlen].
  - rewrite crc_check_eq by exact Hlen. reflexivity.
  - rewrite crc_check_short by lia. reflexivity.
Qed.

(** ** Single-bit flips *)

Lemma elem_of_bit_positions (i j : nat) :
  (i, j) ∈ bit_positions <-> (i < 7)%nat /\ (j < 16)%nat.
Proof.
  unfold bit_positions. rewrite list_elem_of_bind. split.
  - intros (i' & Hin & Hi'). apply list_elem_of_bind in Hin.
    destruct Hin as (j' & Hin & Hj').
    apply list_elem_of_singleton in Hin. inversion Hin; subst.
    apply elem_of_seq in Hi', Hj'. lia.
  - intros [Hi Hj]. exists i. split; [|apply elem_of_seq; lia].
    apply list_elem_of_bind. exists j.
    split; [apply list_elem_of_singleton; reflexivity | apply elem_of_seq; lia].
Qed.

Lemma crc4_nibble_bit (j : nat) :
  (12 <= j < 16)%nat -> crc4 (<[0%nat:=2 ^ Z.of_nat j]> (replicate 7 0)) = 0.
Proof.
  intros Hj.
  do 16 (destruct j as [|j]; [first [ lia | vm_compute; reflexivity ]|]).
  lia.
Qed.

Lemma length_flip_bit (i j : nat) (words : list Z) :
  length (flip_bit i j words) = length words.
Proof. unfold flip_bit. apply length_alter. Qed.

Lemma flip_bit_rejected (i j : nat) (words : list Z) :
  length words = 7%nat -> (i < 7)%nat -> (j < 16)%nat ->
  crc4 words = stored_crc words ->
  crc4 (flip_bit i j words) <> stored_crc (flip_bit i j words).
Proof.
  intros Hlen Hi Hj Hvalid.
  rewrite stored_crc_flip by assumption.
  rewrite flip_bit_lxor by assumption.
  rewrite crc4_lxor
    by (rewrite length_insert, length_replicate; exact Hlen).
  destruct (bool_decide_reflect (i = 0%nat /\ (12 <= j)%nat)) as [[-> Hj'] | Hdata].
  - rewrite crc4_nibble_bit, Z.lxor_0_r, Hvalid by lia.
    intros Heq. symmetry in Heq. revert Heq. apply lxor_neq.
    apply Z.pow_nonzero; lia.
  - rewrite <- Hvalid. apply lxor_neq. apply crc4_single_bit; assumption.
Qed.

(** C9, as the specification states it, fails twice.  The vector
    [0x6000, 0, 0, 0, 0, 0, 1] satisfies the CRC relation that section 4.1
    writes down (bytes XORed into the high byte: nibble 6, stored nibble 6),
    and the check rejects it.  And 7 words of 16 bits have 112 bit
    positions, not 192. *)
Lemma crc_relation_as_written_rejected :
  spec_crc4_high [0x6000; 0; 0; 0; 0; 0; 1]
  = stored_crc [0x6000; 0; 0; 0; 0; 0; 1]
  /\ _psensor_crc_check ([0x6000; 0; 0; 0; 0; 0; 1] ++ [0])
       (stored_crc [0x6000; 0; 0; 0; 0; 0; 1])
     = Some (false, [0x6000; 0; 0; 0; 0; 0; 1; 0])
  /\ length bit_positions = 112%nat
  /\ length bit_positions <> 192%nat.
Proof. repeat split; vm_compute; try reflexivity; discriminate. Qed.

(** C9, amended: for every 7-word calibration vector whose stored top
    nibble equals [crc4] of the vector (the relation the code checks, bytes
    XORed into the low byte of the remainder), the CRC check succeeds, so
    [_init] succeeds when the bus reads deliver the vector; and for every
    such vector and every single-bit flip in any one of the 7 words (112 bit
    positions, the CRC nibble bits included), the CRC check on the flipped
    vector fails, and so does [_init]. *)
Theorem crc_detects_single_bit_flips (words : list Z) (slot : Z) :
  length words = 7%nat ->
  Forall is_uint16 words ->
  crc4 words = stored_crc words ->
  fst <$> _psensor_crc_check (words ++ [slot]) (stored_crc words) = Some true
  /\ (forall (h : Header) (sensor_id : Z) (tmp_buffer : Z * Z)
         (buffer : list Z) (s : State) (rest : list reply),
         length buffer = 8%nat ->
         bus_in s = prom_replies words ++ rest ->
         exists s', _init h sensor_id tmp_buffer buffer s = Some (true, s'))
  /\ forall i j : nat,
       (i, j) ∈ bit_positions ->
       fst <$> _psensor_crc_check (flip_bit i j words ++ [slot])
                 (stored_crc (flip_bit i j words))
       = Some false
       /\ forall (h : Header) (sensor_id : Z) (tmp_buffer : Z * Z)
            (buffer : list Z) (s : State) (rest : list reply),
            length buffer = 8%nat ->
            bus_in s = prom_replies (flip_bit i j words) ++ rest ->
            exists s', _init h sensor_id tmp_buffer buffer s = Some (false, s').
Proof.
  intros Hlen Hwords Hvalid. split; [|split].
  - rewrite crc_check_words by exact Hlen.
    rewrite Hvalid, Z.eqb_refl. reflexivity.
  - intros h sensor_id tmp_buffer buffer s rest Hbuf Hbus.
    destruct (init_on_prom h sensor_id tmp_buffer buffer words s rest
                Hbuf Hlen Hwords Hbus) as (s' & Hinit).
    rewrite Hvalid, Z.eqb_refl in Hinit. exists s'. exact Hinit.
  - intros i j Hij. apply elem_of_bit_positions in Hij. destruct Hij as [Hi Hj].
    assert (Hne : (crc4 (flip_bit i j words) =? stored_crc (flip_bit i j words))
                  = false)
      by (apply Z.eqb_neq, flip_bit_rejected; assumption).
    split.
    + rewrite crc_check_words by (rewrite length_flip_bit; exact Hlen).
      rewrite Hne. reflexivity.
    + intros h sensor_id tmp_buffer buffer s rest Hbuf Hbus.
      destruct (init_on_prom h sensor_id tmp_buffer buffer
                  (flip_bit i j words) s rest Hbuf)
        as (s' & Hinit);
        [rewrite length_flip_bit; exact Hlen
        | apply flip_bit_uint16; assumption | exact Hbus |].
      rewrite Hne in Hinit. exists s'. exact Hinit.
Qed.

Lemma crc_detects_single_bit_flips_witness :
  crc4 [0x4000; 46372; 43981; 29059; 27842; 31553; 28175]
  = stored_crc [0x4000; 46372; 43981; 29059; 27842; 31553; 28175]
  /\ (exists s',
        _init ms8607_h 0 (0, 0) (replicate 8 0) (st0 prom_ok) = Some (true, s'))
  /\ fst <$> _psensor_crc_check
               (flip_bit 3 9 [0x4000; 46372; 43981; 29059; 27842; 31553; 28175]
                ++ [0])
               (stored_crc
                  (flip_bit 3 9
                     [0x4000; 46372; 43981; 29059; 27842; 31553; 28175]))
     = Some false
  /\ exists s',
       _init ms8607_h 0 (0, 0) (replicate 8 0) (st0 prom_corrupt)
       = Some (false, s').
Proof.
  split; [reflexivity|].
  destruct (crc_detects_single_bit_flips
              [0x4000; 46372; 43981; 29059; 27842; 31553; 28175] 0)
    as (_ & Hload & Hflip).
  - reflexivity.
  - repeat constructor; unfold is_uint16; lia.
  - reflexivity.
  - split; [apply (Hload ms8607_h 0 (0, 0) (replicate 8 0) (st0 prom_ok) []);
            reflexivity|].
    destruct (Hflip 1%nat 8%nat) as (Hcheck & Hinit);
      [apply elem_of_bit_positions; lia|].
    destruct (Hflip 3%nat 9%nat) as (Hcheck' & _);
      [apply elem_of_bit_positions; lia|].
    split; [exact Hcheck'|].
    apply (Hinit ms8607_h 0 (0, 0) (replicate 8 0) (st0 prom_corrupt) []);
      reflexivity.
Defined.

(** ** Compensation *)

(** C1: for every raw sample in [0, 2^24-1] and every calibration set of
    16-bit words, the arithmetic of [_read] (in [int32_t] and [int64_t],
    wrap-around included) yields exactly the numbers of the specification's
    algorithm on mathematical integers: dT, TEMP, the second-order terms T2,
    OFF2 and SENS2 of the branch taken, OFF, SENS and P; and a read cycle
    that assembled this raw sample stores the [float] quotients
    (TEMP - T2) / 100 and P / 100 of these numbers. *)
Theorem compensation_exact (d : Adafruit_MS8607) (raw_temp raw_pressure : Z) :
  calibrated d -> is_uint24 raw_temp -> is_uint24 raw_pressure ->
  compensate d raw_temp raw_pressure = spec_of d raw_temp raw_pressure
  /\ forall (h : Header) (status : Z) (buffer : Z * Z * Z) (s s1 : State)
        (st : Z),
       this s = d ->
       sample h status buffer s = Some ((st, raw_temp, raw_pressure), s1) ->
       exists s',
         _read h status buffer s = Some (to_bool st, s')
         /\ _temperature (this s')
            = Float32.div
                (Float32.sub
                   (Float32.of_Z (TEMP (spec_of d raw_temp raw_pressure)))
                   (Float32.of_Z (T2 (spec_of d raw_temp raw_pressure))))
                (Float32.of_Z 100)
         /\ _pressure (this s')
            = Float32.div
                (Float32.of_Z (P (spec_of d raw_temp raw_pressure)))
                (Float32.of_Z 100).
Proof.
  intros Hd Hrt Hrp.
  pose proof (compensate_spec d raw_temp raw_pressure Hd Hrt Hrp) as E.
  split; [exact E|].
  intros h status buffer s s1 st Hthis Hs.
  assert (Hthis1 : this s1 = d).
  { pose proof (sample_eq h status buffer s) as Hs'. cbv zeta in Hs'.
    rewrite Hs in Hs'. injection Hs' as _ _ _ ->. exact Hthis. }
  eexists. split; [exact (read_sample _ _ _ _ _ _ _ _ Hs)|].
  cbn [with_this this store_reading _temperature _pressure].
  unfold temperature_of, pressure_of. rewrite Hthis1, E.
  split; reflexivity.
Qed.

Lemma dev0_calibrated : calibrated dev0.
Proof. unfold calibrated, is_uint16. cbn. lia. Qed.

Lemma compensation_exact_witness :
  compensate dev0 8077636 6465444
  = {| dT := 68; TEMP := 2000; T2 := 0; OFF2 := 0; SENS2 := 0;
       OFF := 5764707214; SENS := 3039050829; P := 110002 |}
  /\ exists b s',
       _read ms8607_h 0 (0, 0, 0) (st0 cycle_ok) = Some (b, s')
       /\ _temperature (this s') = Float32.of_Z 20
       /\ _pressure (this s') = S754_finite false 9011364 (-13).
Proof.
  destruct (compensation_exact dev0 8077636 6465444) as (E & Hread).
  - exact dev0_calibrated.
  - unfold is_uint24. lia.
  - unfold is_uint24. lia.
  - split; [rewrite E; vm_compute; reflexivity|].
    edestruct (Hread ms8607_h 0 (0, 0, 0) (st0 cycle_ok))
      as (s' & Hr & Et & Ep); [reflexivity | vm_compute; reflexivity |].
    eexists _, s'. split; [exact Hr|].
    split; [rewrite Et | rewrite Ep]; vm_compute; reflexivity.
Defined.

(** C8: for every calibration and raw sample whose first-order temperature
    2000 + ((dT * temp_temp_coeff) >> 23), with
    dT = raw_temp - (ref_temp << 8), is exactly 2000, the code takes the
    "not below 20 degrees" branch: it computes this dT and TEMP = 2000,
    T2 = (5 * dT^2) >> 38 and OFF2 = SENS2 = 0, hence OFF and SENS without
    second-order terms, and stores the temperature (2000 - T2) / 100. *)
Theorem boundary_2000 (d : Adafruit_MS8607) (raw_temp raw_pressure : Z) :
  calibrated d -> is_uint24 raw_temp -> is_uint24 raw_pressure ->
  2000 + Z.shiftr ((raw_temp - Z.shiftl (ref_temp d) 8) * temp_temp_coeff d) 23
  = 2000 ->
  let c := compensate d raw_temp raw_pressure in
  dT c = raw_temp - Z.shiftl (ref_temp d) 8
  /\ TEMP c = 2000
  /\ T2 c = Z.shiftr (5 * (raw_temp - Z.shiftl (ref_temp d) 8) ^ 2) 38
  /\ OFF2 c = 0
  /\ SENS2 c = 0
  /\ OFF c
     = Z.shiftl (press_offset d) 17
       + Z.shiftr (press_offset_temp_coeff d
                   * (raw_temp - Z.shiftl (ref_temp d) 8)) 6
  /\ SENS c
     = Z.shiftl (press_sens d) 16
       + Z.shiftr (press_sens_temp_coeff d
                   * (raw_temp - Z.shiftl (ref_temp d) 8)) 7
  /\ temperature_of c
     = Float32.div
         (Float32.sub (Float32.of_Z 2000)
            (Float32.of_Z
               (Z.shiftr (5 * (raw_temp - Z.shiftl (ref_temp d) 8) ^ 2) 38)))
         (Float32.of_Z 100).
Proof.
  intros Hd Hrt Hrp HT c. subst c.
  rewrite (compensate_spec d raw_temp raw_pressure Hd Hrt Hrp).
  unfold temperature_of, spec_of, spec_compensate.
  cbn [TEMP T2 OFF2 SENS2 OFF SENS dT].
  rewrite HT. cbn [Z.ltb Z.compare Pos.compare Pos.compare_cont].
  rewrite !Z.sub_0_r.
  repeat (split; [reflexivity|]). reflexivity.
Qed.

(** At this sample the two branches differ: [(3 * dT^2) >> 33] would be
    24575. *)
Lemma boundary_2000_witness :
  let c := compensate dev_flat 8414207 6465444 in
  dT c = 8388607 /\ TEMP c = 2000 /\ T2 c = 1279
  /\ Z.shiftr (3 * dT c ^ 2) 33 = 24575
  /\ OFF2 c = 0 /\ SENS2 c = 0.
Proof.
  destruct (boundary_2000 dev_flat 8414207 6465444)
    as (EdT & ET & E2 & EO & ES & _).
  - unfold calibrated, is_uint16. cbn. lia.
  - unfold is_uint24. lia.
  - unfold is_uint24. lia.
  - vm_compute. reflexivity.
  - cbv zeta. rewrite EdT, ET, E2, EO, ES.
    repeat (split; [vm_compute; reflexivity|]). reflexivity.
Defined.

(** ** Raw values and command bytes *)

Lemma lor_uint8 (a b : Z) : is_uint8 a -> is_uint8 b -> is_uint8 (Z.lor a b).
Proof.
  unfold is_uint8. intros Ha Hb.
  rewrite <- (Z.mod_small a (2 ^ 8)), <- (Z.mod_small b (2 ^ 8)) by assumption.
  rewrite <- !Z.land_ones, <- Z.land_lor_distr_l, Z.land_ones by lia.
  apply Z.mod_pos_bound. lia.
Qed.

Lemma command_byte (osr flag : Z) :
  0 <= osr < 128 -> is_uint8 flag ->
  to_uint8 (Z.lor (to_uint8 (osr * 2)) flag) = Z.lor (osr * 2) flag.
Proof.
  intros Hosr Hflag.
  assert (H2 : is_uint8 (osr * 2)) by (unfold is_uint8; lia).
  rewrite (to_uint8_small (osr * 2)) by exact H2.
  apply to_uint8_small, lor_uint8; assumption.
Qed.

Lemma adc_value_bytes (b0 b1 b2 : Z) :
  is_uint8 b0 -> is_uint8 b1 -> is_uint8 b2 ->
  adc_value (b0, b1, b2) = big_endian24 b0 b1 b2
  /\ is_uint24 (big_endian24 b0 b1 b2).
Proof.
  unfold is_uint8, is_uint24, big_endian24. intros H0 H1 H2.
  assert (Hr : 0 <= b0 * 2 ^ 16 + b1 * 2 ^ 8 + b2 < 2 ^ 24) by lia.
  split; [|exact Hr].
  unfold adc_value, to_uint32.
  rewrite (Z.mod_small b0), (Z.mod_small b1) by lia.
  rewrite !Z.shiftl_mul_pow2 by lia.
  rewrite (Z.mod_small (b0 * 2 ^ 16)), (Z.mod_small (b1 * 2 ^ 8)) by lia.
  rewrite (lor_disjoint b0 (b1 * 2 ^ 8) 16) by lia.
  replace (b0 * 2 ^ 16 + b1 * 2 ^ 8) with ((b0 * 2 ^ 8 + b1) * 2 ^ 8) by lia.
  rewrite (lor_disjoint (b0 * 2 ^ 8 + b1) b2 8) by lia.
  apply Z.mod_small. lia.
Qed.

Lemma received_3 (b0 b1 b2 : Z) :
  received (Ack [b0; b1; b2]) 3 = Some [to_uint8 b0; to_uint8 b1; to_uint8 b2].
Proof. reflexivity. Qed.

(** ** The read cycle *)

(** C6: every read cycle issues the temperature start-conversion command,
    waits and reads the raw temperature back, and only then issues the
    pressure start-conversion command, waits and reads the raw pressure.
    Each command byte is the resolution code times 2 OR-ed with the
    channel's start-conversion flag, and a raw value that the device answers
    with 3 bytes is those bytes assembled big-endian, a 24-bit unsigned
    number. *)
Theorem read_cycle_sequence (h : Header) (status : Z) (buffer : Z * Z * Z)
    (s : State) :
  0 <= psensor_resolution_osr (this s) < 128 ->
  is_uint8 (PSENSOR_START_TEMPERATURE_ADC_CONVERSION h) ->
  is_uint8 (PSENSOR_START_PRESSURE_ADC_CONVERSION h) ->
  exists st raw_temp raw_pressure s1,
    sample h status buffer s = Some ((st, raw_temp, raw_pressure), s1)
    /\ _read h status buffer s
       = Some (to_bool st,
               with_this s1
                 (store_reading (this s)
                    (compensate (this s) raw_temp raw_pressure)))
    /\ bus_log s1
       = bus_log s ++
         [I2CWrite [Z.lor (psensor_resolution_osr (this s) * 2)
                      (PSENSOR_START_TEMPERATURE_ADC_CONVERSION h)];
          DelayMs 18;
          I2CWriteThenRead [to_uint8 (PSENSOR_READ_ADC h)] 3;
          I2CWrite [Z.lor (psensor_resolution_osr (this s) * 2)
                      (PSENSOR_START_PRESSURE_ADC_CONVERSION h)];
          DelayMs 18;
          I2CWriteThenRead [to_uint8 (PSENSOR_READ_ADC h)] 3]
    /\ (forall b0 b1 b2 : Z,
          nth 1 (bus_in s) Nak = Ack [b0; b1; b2] ->
          is_uint8 b0 -> is_uint8 b1 -> is_uint8 b2 ->
          raw_temp = big_endian24 b0 b1 b2 /\ is_uint24 raw_temp)
    /\ (forall b0 b1 b2 : Z,
          nth 3 (bus_in s) Nak = Ack [b0; b1; b2] ->
          is_uint8 b0 -> is_uint8 b1 -> is_uint8 b2 ->
          raw_pressure = big_endian24 b0 b1 b2 /\ is_uint24 raw_pressure).
Proof.
  intros Hosr Ht Hp.
  pose proof (sample_eq h status buffer s) as Hs. cbv zeta in Hs.
  rewrite !command_byte in Hs by assumption.
  eexists _, _, _, _. split; [exact Hs|].
  split; [rewrite (read_sample _ _ _ _ _ _ _ _ Hs); reflexivity|].
  split; [reflexivity|].
  split; intros b0 b1 b2 Hr H0 H1 H2; rewrite Hr, received_3;
    rewrite !to_uint8_small by assumption;
    destruct (adc_value_bytes b0 b1 b2 H0 H1 H2) as [E R];
    rewrite E; split; [reflexivity | exact R | reflexivity | exact R].
Qed.

Lemma read_cycle_sequence_witness :
  exists st s1,
    sample ms8607_h 0 (0, 0, 0) (st0 cycle_ok)
    = Some ((st, 8077636, 6465444), s1)
    /\ bus_log s1
       = [I2CWrite [0x5A]; DelayMs 18; I2CWriteThenRead [0x00] 3;
          I2CWrite [0x4A]; DelayMs 18; I2CWriteThenRead [0x00] 3].
Proof.
  destruct (read_cycle_sequence ms8607_h 0 (0, 0, 0) (st0 cycle_ok))
    as (st & rt & rp & s1 & Hs & _ & Hlog & Hrt & Hrp).
  - cbn. lia.
  - unfold is_uint8. cbn. lia.
  - unfold is_uint8. cbn. lia.
  - destruct (Hrt 0x7B 0x41 0x44) as [Et _];
      [reflexivity | unfold is_uint8; lia ..|].
    destruct (Hrp 0x62 0xA7 0xA4) as [Ep _];
      [reflexivity | unfold is_uint8; lia ..|].
    exists st, s1. split.
    + rewrite Hs, Et, Ep. reflexivity.
    + exact Hlog.
Defined.

(** C4, as the specification states it, fails: the object caches the data
    sheet's reading (20.00 degrees Celsius, 1100.02 mbar) and the next read
    cycle loses the read of the raw pressure (the fourth transaction is not
    acknowledged); [_read] still overwrites [_pressure], with a value
    computed from the bytes the temperature read left in the buffer. *)
Lemma read_failure_overwrites_cache :
  nth 3 (bus_in (st_cached cycle_last_fails)) Nak = Nak
  /\ exists b s',
       _read ms8607_h 0 (0, 0, 0) (st_cached cycle_last_fails) = Some (b, s')
       /\ _temperature (this (st_cached cycle_last_fails)) = Float32.of_Z 20
       /\ _pressure (this (st_cached cycle_last_fails))
          = S754_finite false 9011364 (-13)
       /\ _pressure (this s') = S754_finite true 14351319 (-13)
       /\ _pressure (this s') <> _pressure (this (st_cached cycle_last_fails)).
Proof.
  split; [reflexivity|]. eexists _, _.
  split; [vm_compute; reflexivity|].
  repeat split; try (vm_compute; reflexivity).
  vm_compute. discriminate.
Qed.

(** C4, amended: for every device state, a read cycle, whether or not a bus
    transaction fails, overwrites the cached [_temperature] and [_pressure]
    with the values compensated from the two raw values it assembled from
    the read buffer, and returns; the calibration constants, the resolution
    and the sensor ids are left as they were.  (After a failed read the
    buffer holds what was in it before; the previous Reading is not
    preserved.) *)
Theorem read_always_stores (h : Header) (status : Z) (buffer : Z * Z * Z)
    (s : State) :
  exists st raw_temp raw_pressure s1 s',
    sample h status buffer s = Some ((st, raw_temp, raw_pressure), s1)
    /\ _read h status buffer s = Some (to_bool st, s')
    /\ _temperature (this s')
       = temperature_of (compensate (this s) raw_temp raw_pressure)
    /\ _pressure (this s')
       = pressure_of (compensate (this s) raw_temp raw_pressure)
    /\ press_sens (this s') = press_sens (this s)
    /\ press_offset (this s') = press_offset (this s)
    /\ press_sens_temp_coeff (this s') = press_sens_temp_coeff (this s)
    /\ press_offset_temp_coeff (this s') = press_offset_temp_coeff (this s)
    /\ ref_temp (this s') = ref_temp (this s)
    /\ temp_temp_coeff (this s') = temp_temp_coeff (this s)
    /\ psensor_resolution_osr (this s') = psensor_resolution_osr (this s)
    /\ _sensorid_temp (this s') = _sensorid_temp (this s)
    /\ _sensorid_pressure (this s') = _sensorid_pressure (this s).
Proof.
  pose proof (sample_eq h status buffer s) as Hs. cbv zeta in Hs.
  eexists _, _, _, _, _. split; [exact Hs|].
  split; [exact (read_sample _ _ _ _ _ _ _ _ Hs)|].
  repeat split.
Qed.

(** The result of [_read]: true as soon as [status] was non-zero on entry
    or one of the four transactions succeeded. *)
Lemma status_or (x : Z) (b : bool) :
  is_uint8 x ->
  is_uint8 (to_uint8 (Z.lor x (of_bool b)))
  /\ to_bool (to_uint8 (Z.lor x (of_bool b))) = to_bool x || b.
Proof.
  intros Hx. split; [apply to_uint8_range|].
  assert (Hb : is_uint8 (of_bool b)) by (unfold is_uint8; destruct b; cbn; lia).
  rewrite to_uint8_small by (apply lor_uint8; assumption).
  unfold to_bool. destruct b; cbn [of_bool].
  - rewrite orb_true_r.
    destruct (Z.eqb_spec (Z.lor x 1) 0) as [E | _]; [|reflexivity].
    apply Z.lor_eq_0_iff in E. lia.
  - rewrite Z.lor_0_r, orb_false_r. reflexivity.
Qed.

Lemma read_result (h : Header) (status : Z) (buffer : Z * Z * Z) (s : State) :
  is_uint8 status ->
  exists s',
    _read h status buffer s
    = Some (to_bool status
            || acked (nth 0 (bus_in s) Nak)
            || bool_decide (is_Some (received (nth 1 (bus_in s) Nak) 3))
            || acked (nth 2 (bus_in s) Nak)
            || bool_decide (is_Some (received (nth 3 (bus_in s) Nak) 3)),
            s').
Proof.
  intros H0.
  pose proof (sample_eq h status buffer s) as Hs. cbv zeta in Hs.
  rewrite (read_sample _ _ _ _ _ _ _ _ Hs). eexists.
  destruct (status_or status (acked (nth 0 (bus_in s) Nak)) H0) as [H1 E1].
  destruct (status_or _
    (bool_decide (is_Some (received (nth 1 (bus_in s) Nak) 3))) H1) as [H2 E2].
  destruct (status_or _ (acked (nth 2 (bus_in s) Nak)) H2) as [H3 E3].
  destruct (status_or _
    (bool_decide (is_Some (received (nth 3 (bus_in s) Nak) 3))) H3) as [_ E4].
  rewrite E4, E3, E2, E1. reflexivity.
Qed.

(** C5 fails on the code.  In the cycle [cycle_first_fails] the temperature
    start command is not acknowledged and [_read] returns true: it returns
    true as soon as one of the four transactions succeeds (or [status] was
    non-zero on entry).  And [getEvent] returns true whatever the bus does,
    for it drops the result of [_read]. *)
Theorem read_failure_reported_as_success :
  nth 0 (bus_in (st0 cycle_first_fails)) Nak = Nak
  /\ fst <$> _read ms8607_h 0 (0, 0, 0) (st0 cycle_first_fails) = Some true
  /\ fst <$> _read ms8607_h 0 (0, 0, 0) (st0 []) = Some false
  /\ (fun r => fst (fst (fst r)))
       <$> getEvent ms8607_h true true false 0 (0, 0, 0) (st0 [])
     = Some true
  /\ (forall (h : Header) (status : Z) (buffer : Z * Z * Z) (s : State),
        is_uint8 status ->
        fst <$> _read h status buffer s
        = Some (to_bool status
                || acked (nth 0 (bus_in s) Nak)
                || bool_decide (is_Some (received (nth 1 (bus_in s) Nak) 3))
                || acked (nth 2 (bus_in s) Nak)
                || bool_decide (is_Some (received (nth 3 (bus_in s) Nak) 3))))
  /\ forall (h : Header) (pressure temp humidity : bool) (status : Z)
       (buffer : Z * Z * Z) (s : State),
       exists pressure_event temp_event s',
         getEvent h pressure temp humidity status buffer s
         = Some ((true, pressure_event, temp_event), s').
Proof.
  split; [reflexivity|].
  split; [vm_compute; reflexivity|].
  split; [vm_compute; reflexivity|].
  split; [vm_compute; reflexivity|].
  split.
  - intros h status buffer s H0.
    destruct (read_result h status buffer s H0) as (s' & ->). reflexivity.
  - intros h pressure temp humidity status buffer s.
    destruct (read_returns h status buffer s) as (b & s' & Hr).
    rewrite (getEvent_read _ _ _ _ _ _ _ _ _ Hr).
    eexists _, _, _. reflexivity.
Qed.

(** ** Initialisation *)

(** C3 fails on the code.  The PROM holds a calibration set whose checksum
    is right; the seventh read fails, the word assembled for it is the
    address byte 0xAC and the low byte left by the sixth read, and the
    checksum happens to accept it: [_init] returns true and stores 44097 as
    [temp_temp_coeff], where the PROM has 28175.  In general the CRC check
    is always run, on whatever words the loop assembled, and its verdict is
    the result of [_init]: no reply of the bus is consulted. *)
Theorem init_ignores_bus_failure :
  nth 6 prom_last_fails Nak = Nak
  /\ (exists s',
        _init ms8607_h 0 (0, 0) (replicate 8 0) (st0 prom_last_fails)
        = Some (true, s')
        /\ temp_temp_coeff (this s') = 44097)
  /\ (exists s',
        _init ms8607_h 0 (0, 0) (replicate 8 0) (st0 prom_ok) = Some (true, s')
        /\ temp_temp_coeff (this s') = 28175)
  /\ forall (h : Header) (sensor_id : Z) (tmp_buffer : Z * Z)
       (buffer : list Z) (s : State),
       length buffer = 8%nat ->
       exists words s1,
         prom_loop h (seqZ 0 7) tmp_buffer buffer s = Some (words, s1)
         /\ fst <$> _init h sensor_id tmp_buffer buffer s
            = fst <$> _psensor_crc_check words (crc_nibble (words !!! 0%nat)).
Proof.
  split; [reflexivity|].
  split; [eexists; split; [vm_compute; reflexivity | reflexivity]|].
  split; [eexists; split; [vm_compute; reflexivity | reflexivity]|].
  intros h sensor_id tmp_buffer buffer s Hlen.
  destruct (prom_loop_total h (seqZ 0 7) tmp_buffer buffer s)
    as (words & s1 & Hloop & Hwords & _).
  { rewrite Hlen. apply Forall_forall. intros i Hi.
    apply elem_of_seqZ in Hi. lia. }
  exists words, s1. split; [exact Hloop|].
  rewrite (init_eq h sensor_id tmp_buffer buffer words s s1 Hloop) by lia.
  rewrite crc_check_eq by lia. unfold stored_crc.
  destruct (crc4 (take 7 words) =? crc_nibble (words !!! 0%nat)); reflexivity.
Qed.

(** C7: when the CRC check of initialisation fails, [_init] returns false
    and the object is left exactly as it was: none of the six calibration
    constants and not the resolution is written. *)
Theorem init_crc_failure (h : Header) (sensor_id : Z) (tmp_buffer : Z * Z)
    (buffer : list Z) (s : State) :
  length buffer = 8%nat ->
  exists words s1,
    prom_loop h (seqZ 0 7) tmp_buffer buffer s = Some (words, s1)
    /\ length words = 8%nat
    /\ (fst <$> _psensor_crc_check words (crc_nibble (words !!! 0%nat))
        = Some false ->
        _init h sensor_id tmp_buffer buffer s = Some (false, s1)
        /\ this s1 = this s).
Proof.
  intros Hlen.
  destruct (prom_loop_total h (seqZ 0 7) tmp_buffer buffer s)
    as (words & s1 & Hloop & Hwords & Hthis).
  { rewrite Hlen. apply Forall_forall. intros i Hi.
    apply elem_of_seqZ in Hi. lia. }
  exists words, s1. rewrite Hwords, Hlen.
  split; [exact Hloop|]. split; [reflexivity|].
  intros Hcrc. split; [|exact Hthis].
  rewrite (init_eq h sensor_id tmp_buffer buffer words s s1 Hloop) by lia.
  rewrite crc_check_eq in Hcrc by lia.
  cbn [fmap option_fmap option_map fst] in Hcrc.
  unfold stored_crc. injection Hcrc as ->. reflexivity.
Qed.

Lemma init_crc_failure_witness :
  length (replicate 8 0) = 8%nat
  /\ exists s1,
       _init ms8607_h 0 (0, 0) (replicate 8 0) (st0 prom_corrupt)
       = Some (false, s1)
       /\ this s1 = dev0.
Proof.
  split; [reflexivity|].
  destruct (init_crc_failure ms8607_h 0 (0, 0) (replicate 8 0)
              (st0 prom_corrupt) eq_refl)
    as (words & s1 & Hloop & _ & Hfail).
  exists s1. apply Hfail.
  vm_compute in Hloop. injection Hloop as <- _.
  vm_compute. reflexivity.
Defined.


(** * Further properties of the code *)

(** ** The checksum *)

Lemma crc_shift_range (x : Z) : is_uint16 (crc_shift x).
Proof.
  unfold crc_shift, is_uint16, to_uint16.
  destruct (to_bool _); apply Z.mod_pos_bound; lia.
Qed.

Lemma crc_bits_range (n : nat) (x : Z) : is_uint16 x -> is_uint16 (crc_bits n x).
Proof.
  revert x. induction n as [|n IH]; intros x Hx; [exact Hx|].
  simpl. apply IH, crc_shift_range.
Qed.

Lemma fold_step_low_range (bytes : list Z) (r : Z) :
  is_uint16 r -> is_uint16 (fold_left step_low bytes r).
Proof.
  revert r. induction bytes as [|b bytes IH]; intros r Hr; [exact Hr|].
  cbn [fold_left]. apply IH. unfold step_low.
  exact (crc_bits_range 7 _ (crc_shift_range _)).
Qed.

Lemma crc4_range (words : list Z) : 0 <= crc4 words < 16.
Proof.
  unfold crc4.
  assert (H : is_uint16 (fold_left step_low (crc_message words) 0))
    by (apply fold_step_low_range; unfold is_uint16; lia).
  unfold is_uint16 in H. apply shiftr_bounds; lia.
Qed.

(** X1: [_psensor_crc_check] accepts only a [crc] argument between 0 and
    15: with any other value it returns false, whatever the array holds. *)
Theorem crc_check_accepts_nibbles_only (n_prom : list Z) (crc : Z) :
  fst <$> _psensor_crc_check n_prom crc = Some true -> 0 <= crc < 16.
Proof.
  intros H.
  destruct (decide (8 <= length n_prom)%nat) as [Hlen | Hlen].
  - rewrite crc_check_eq in H by exact Hlen.
    cbn [fmap option_fmap option_map fst] in H. injection H as H.
    apply Z.eqb_eq in H. rewrite <- H. apply crc4_range.
  - rewrite crc_check_short in H by lia. discriminate.
Qed.

Lemma crc_check_accepts_nibbles_only_witness :
  fst <$> _psensor_crc_check [0; 0; 0; 0; 0; 0; 1; 0] 15 = Some true
  /\ 0 <= 15 < 16.
Proof.
  assert (H : fst <$> _psensor_crc_check [0; 0; 0; 0; 0; 0; 1; 0] 15 = Some true)
    by (vm_compute; reflexivity).
  split; [exact H|].
  exact (crc_check_accepts_nibbles_only [0; 0; 0; 0; 0; 0; 1; 0] 15 H).
Defined.

(** The nibble of word 0 is not covered by the checksum. *)
Lemma with_nibble_facts (n w : Z) :
  0 <= n < 16 ->
  Z.land 0x0FFF (Z.lor (Z.shiftl n 12) (Z.land w 0x0FFF)) = Z.land 0x0FFF w
  /\ crc_nibble (Z.lor (Z.shiftl n 12) (Z.land w 0x0FFF)) = n.
Proof.
  intros Hn.
  change 4095 with (Z.ones 12). rewrite (Z.land_ones w 12) by lia.
  assert (Hr : 0 <= w mod 2 ^ 12 < 2 ^ 12) by (apply Z.mod_pos_bound; lia).
  rewrite Z.shiftl_mul_pow2, lor_disjoint by lia.
  split.
  - rewrite Z.land_comm, Z.land_ones by lia.
    rewrite (Z.land_comm _ w), Z.land_ones by lia.
    rewrite Z.add_comm, Z.mod_add by lia. apply Z.mod_mod. lia.
  - rewrite crc_nibble_eq, Z.shiftr_land.
    change (Z.shiftr 61440 12) with (Z.ones 4). rewrite Z.land_ones by lia.
    rewrite Z.shiftr_div_pow2 by lia.
    rewrite Z.add_comm, Z.div_add by lia.
    rewrite Z.div_small by lia. apply Z.mod_small. lia.
Qed.

Lemma crc4_with_nibble (n : Z) (words : list Z) :
  0 <= n < 16 -> crc4 (with_nibble n words) = crc4 words.
Proof.
  intros Hn. unfold crc4, crc_message, with_nibble. do 4 f_equal.
  destruct words as [|w words]; [reflexivity|].
  cbn [alter list_alter]. rewrite (proj1 (with_nibble_facts n w Hn)).
  reflexivity.
Qed.

Lemma stored_crc_with_nibble (n : Z) (words : list Z) :
  0 <= n < 16 -> words <> [] -> stored_crc (with_nibble n words) = n.
Proof.
  intros Hn Hne. destruct words as [|w words]; [congruence|].
  unfold stored_crc, with_nibble.
  cbn [alter list_alter lookup_total list_lookup_total].
  exact (proj2 (with_nibble_facts n w Hn)).
Qed.

(** X2: for every 7 calibration words there is exactly one value of the
    top nibble of word 0 that the CRC check accepts, the nibble [crc4] of
    the words; the check does not depend on the nibble that is stored while
    it computes, nor on the 8th slot. *)
Theorem crc_unique_valid_nibble (words : list Z) (slot n : Z) :
  length words = 7%nat -> 0 <= n < 16 ->
  (fst <$> _psensor_crc_check (with_nibble n words ++ [slot])
             (stored_crc (with_nibble n words)) = Some true
   <-> n = crc4 words)
  /\ 0 <= crc4 words < 16.
Proof.
  intros Hlen Hn. split; [|apply crc4_range].
  rewrite crc_check_words by (unfold with_nibble; rewrite length_alter; exact Hlen).
  rewrite crc4_with_nibble by exact Hn.
  rewrite stored_crc_with_nibble by (try exact Hn; destruct words; discriminate).
  cbn [fmap option_fmap option_map fst]. split.
  - intros H. injection H as H. apply Z.eqb_eq in H. congruence.
  - intros ->. rewrite Z.eqb_refl. reflexivity.
Qed.

Lemma crc_unique_valid_nibble_witness :
  (fst <$> _psensor_crc_check
             (with_nibble 4 [0x0123; 46372; 43981; 29059; 27842; 31553; 28175]
              ++ [9])
             (stored_crc
                (with_nibble 4
                   [0x0123; 46372; 43981; 29059; 27842; 31553; 28175]))
   = Some true
   <-> 4 = crc4 [0x0123; 46372; 43981; 29059; 27842; 31553; 28175])
  /\ 0 <= crc4 [0x0123; 46372; 43981; 29059; 27842; 31553; 28175] < 16.
Proof.
  apply (crc_unique_valid_nibble
           [0x0123; 46372; 43981; 29059; 27842; 31553; 28175] 9 4);
    [reflexivity | lia].
Defined.

(** The checksum of a single data bit at stream position p is x^(p+12)
    modulo the generator x^4 + x + 1, whose powers have period 15. *)
Lemma syndrome_table :
  forallb (fun p : nat * nat =>
    implb (data_bit p.1 p.2)
      (crc4 (<[p.1:=2 ^ Z.of_nat p.2]> (replicate 7 0))
       =? x_power ((stream_pos p.1 p.2 + 12) mod 15)))
    bit_positions = true.
Proof. vm_compute. reflexivity. Qed.

Lemma x_power_table :
  forallb (fun a : Z =>
    forallb (fun b : Z => implb (x_power a =? x_power b) (a =? b))
      (seqZ 0 15)) (seqZ 0 15) = true.
Proof. vm_compute. reflexivity. Qed.

Lemma x_power_inj (a b : Z) :
  0 <= a < 15 -> 0 <= b < 15 -> x_power a = x_power b -> a = b.
Proof.
  intros Ha Hb Heq. pose proof x_power_table as T.
  rewrite forallb_forall in T.
  assert (Hin : forall k : Z, 0 <= k < 15 -> In k (seqZ 0 15))
    by (intros k Hk; apply list_elem_of_In, elem_of_seqZ; lia).
  specialize (T a (Hin a Ha)). rewrite forallb_forall in T.
  specialize (T b (Hin b Hb)). apply Z.eqb_eq in Heq. rewrite Heq in T.
  apply Z.eqb_eq, T.
Qed.

Lemma data_bit_spec (i j : nat) :
  data_bit i j = true <->
  (i < 7)%nat /\ (j < 16)%nat /\ ~ (i = 0%nat /\ (12 <= j)%nat).
Proof.
  unfold data_bit.
  rewrite !andb_true_iff, negb_true_iff, andb_false_iff.
  rewrite !Nat.ltb_lt, Nat.eqb_neq, Nat.leb_gt. lia.
Qed.

Lemma syndrome_value (i j : nat) :
  data_bit i j = true ->
  crc4 (<[i:=2 ^ Z.of_nat j]> (replicate 7 0))
  = x_power ((stream_pos i j + 12) mod 15).
Proof.
  intros H. pose proof syndrome_table as T.
  rewrite forallb_forall in T.
  assert (Hin : In (i, j) bit_positions).
  { apply list_elem_of_In, elem_of_bit_positions.
    apply data_bit_spec in H. lia. }
  specialize (T (i, j) Hin). cbn [fst snd] in T. rewrite H in T.
  apply Z.eqb_eq, T.
Qed.

Lemma syndrome_eq (i1 j1 i2 j2 : nat) :
  data_bit i1 j1 = true -> data_bit i2 j2 = true ->
  (crc4 (<[i1:=2 ^ Z.of_nat j1]> (replicate 7 0))
   =? crc4 (<[i2:=2 ^ Z.of_nat j2]> (replicate 7 0)))
  = ((stream_pos i1 j1 - stream_pos i2 j2) mod 15 =? 0).
Proof.
  intros H1 H2. rewrite !syndrome_value by assumption.
  set (p1 := stream_pos i1 j1). set (p2 := stream_pos i2 j2).
  assert (Hr1 : 0 <= (p1 + 12) mod 15 < 15) by (apply Z.mod_pos_bound; lia).
  assert (Hr2 : 0 <= (p2 + 12) mod 15 < 15) by (apply Z.mod_pos_bound; lia).
  destruct (Z.eqb_spec ((p1 - p2) mod 15) 0) as [Hm | Hm].
  - apply Z.eqb_eq. f_equal.
    revert Hm Hr1 Hr2. Z.div_mod_to_equations. lia.
  - apply Z.eqb_neq. intros Heq. apply Hm.
    apply x_power_inj in Heq; [|assumption..].
    revert Heq Hr1 Hr2. Z.div_mod_to_equations. lia.
Qed.

(** X3: two flipped bits.  For every valid calibration vector, the CRC
    check on the vector with two data bits flipped (bits outside the CRC
    nibble) succeeds exactly when the two bits are a multiple of 15
    positions apart in the bit stream of the 7 words: such double flips are
    not detected, all others are. *)
Theorem crc_double_flip (words : list Z) (slot : Z) (i1 j1 i2 j2 : nat) :
  length words = 7%nat ->
  crc4 words = stored_crc words ->
  data_bit i1 j1 = true -> data_bit i2 j2 = true ->
  fst <$> _psensor_crc_check
            (flip_bit i1 j1 (flip_bit i2 j2 words) ++ [slot])
            (stored_crc (flip_bit i1 j1 (flip_bit i2 j2 words)))
  = Some (bool_decide ((stream_pos i1 j1 - stream_pos i2 j2) mod 15 = 0)).
Proof.
  intros Hlen Hvalid H1 H2.
  pose proof (proj1 (data_bit_spec i1 j1) H1) as (Hi1 & Hj1 & Hd1).
  pose proof (proj1 (data_bit_spec i2 j2) H2) as (Hi2 & Hj2 & Hd2).
  assert (Hlen2 : length (flip_bit i2 j2 words) = 7%nat)
    by (rewrite length_flip_bit; exact Hlen).
  rewrite crc_check_words by (rewrite length_flip_bit; exact Hlen2).
  rewrite !stored_crc_flip by assumption.
  rewrite !bool_decide_false by assumption.
  rewrite (flip_bit_lxor i1 j1) by assumption.
  rewrite crc4_lxor by (rewrite length_insert, length_replicate; exact Hlen2).
  rewrite (flip_bit_lxor i2 j2) by assumption.
  rewrite crc4_lxor by (rewrite length_insert, length_replicate; exact Hlen).
  rewrite <- Hvalid. cbn [fmap option_fmap option_map fst]. f_equal.
  set (c := crc4 words).
  set (s1 := crc4 (<[i1:=2 ^ Z.of_nat j1]> (replicate 7 0))).
  set (s2 := crc4 (<[i2:=2 ^ Z.of_nat j2]> (replicate 7 0))).
  pose proof (syndrome_eq i1 j1 i2 j2 H1 H2) as Hs. fold s1 s2 in Hs.
  destruct (bool_decide_reflect ((stream_pos i1 j1 - stream_pos i2 j2) mod 15 = 0))
    as [Hm | Hm].
  - apply Z.eqb_eq in Hm. rewrite Hm in Hs. apply Z.eqb_eq in Hs.
    rewrite Hs, Z.lxor_assoc, Z.lxor_nilpotent, Z.lxor_0_r.
    apply Z.eqb_refl.
  - apply Z.eqb_neq in Hm. rewrite Hm in Hs. apply Z.eqb_neq in Hs.
    apply Z.eqb_neq. intros Heq. apply Hs.
    rewrite Z.lxor_assoc in Heq.
    assert (H0 : Z.lxor s2 s1 = 0).
    { rewrite <- (Z.lxor_0_l (Z.lxor s2 s1)), <- (Z.lxor_nilpotent c).
      rewrite Z.lxor_assoc, Heq. reflexivity. }
    apply Z.lxor_eq in H0. congruence.
Qed.

Lemma crc_double_flip_witness :
  fst <$> _psensor_crc_check
            (flip_bit 6 0
               (flip_bit 6 15 [0x4000; 46372; 43981; 29059; 27842; 31553; 28175])
             ++ [0])
            (stored_crc
               (flip_bit 6 0
                  (flip_bit 6 15
                     [0x4000; 46372; 43981; 29059; 27842; 31553; 28175])))
  = Some true.
Proof.
  exact (crc_double_flip [0x4000; 46372; 43981; 29059; 27842; 31553; 28175] 0
           6 0 6 15 eq_refl eq_refl eq_refl eq_refl).
Defined.

(** ** Compensation *)

Lemma shiftr_le (a b n : Z) : 0 <= n -> a <= b -> Z.shiftr a n <= Z.shiftr b n.
Proof.
  intros Hn Hab. rewrite !Z.shiftr_div_pow2 by exact Hn.
  apply Z.div_le_mono; [apply Z.pow_pos_nonneg; lia | exact Hab].
Qed.

Lemma spec_dT (d : Adafruit_MS8607) (raw_temp raw_pressure : Z) :
  dT (spec_of d raw_temp raw_pressure) = raw_temp - ref_temp d * 256.
Proof.
  unfold spec_of, spec_compensate. cbn [dT].
  rewrite Z.shiftl_mul_pow2 by lia. reflexivity.
Qed.

Lemma spec_TEMP (d : Adafruit_MS8607) (raw_temp raw_pressure : Z) :
  TEMP (spec_of d raw_temp raw_pressure)
  = 2000 + Z.shiftr ((raw_temp - ref_temp d * 256) * temp_temp_coeff d) 23.
Proof.
  unfold spec_of, spec_compensate. cbn [TEMP].
  rewrite Z.shiftl_mul_pow2 by lia. reflexivity.
Qed.

(** X4: the first-order temperature TEMP does not depend on the raw
    pressure and never decreases when the raw temperature increases. *)
Theorem temp_monotone (d : Adafruit_MS8607) (rt1 rt2 rp1 rp2 : Z) :
  calibrated d ->
  is_uint24 rt1 -> is_uint24 rt2 -> is_uint24 rp1 -> is_uint24 rp2 ->
  rt1 <= rt2 ->
  TEMP (compensate d rt1 rp1) <= TEMP (compensate d rt2 rp2).
Proof.
  intros Hd H1 H2 H3 H4 Hle.
  rewrite !compensate_spec, !spec_TEMP by assumption.
  destruct Hd as (_ & _ & _ & _ & _ & Hc6). unfold is_uint16 in Hc6.
  apply Z.add_le_mono_l, shiftr_le; [lia|].
  apply Z.mul_le_mono_nonneg_r; lia.
Qed.

Lemma temp_monotone_witness :
  TEMP (compensate dev0 8077636 0) <= TEMP (compensate dev0 8261408 6465444).
Proof.
  apply temp_monotone; try exact dev0_calibrated; unfold is_uint24; lia.
Defined.

Lemma spec_P (d : Adafruit_MS8607) (raw_temp raw_pressure : Z) :
  P (spec_of d raw_temp raw_pressure)
  = Z.shiftr
      (Z.shiftr (raw_pressure * SENS (spec_of d raw_temp 0)) 21
       - OFF (spec_of d raw_temp 0)) 15.
Proof. reflexivity. Qed.

Lemma spec_SENS_rp (d : Adafruit_MS8607) (raw_temp rp1 rp2 : Z) :
  SENS (spec_of d raw_temp rp1) = SENS (spec_of d raw_temp rp2).
Proof. reflexivity. Qed.

(** X5: for a fixed raw temperature, the compensated pressure P never
    decreases when the raw pressure increases, provided the sensitivity
    SENS at that temperature is not negative. *)
Theorem pressure_monotone (d : Adafruit_MS8607) (rt rp1 rp2 : Z) :
  calibrated d -> is_uint24 rt -> is_uint24 rp1 -> is_uint24 rp2 ->
  0 <= SENS (compensate d rt rp1) ->
  rp1 <= rp2 ->
  P (compensate d rt rp1) <= P (compensate d rt rp2).
Proof.
  intros Hd Ht H1 H2 Hs Hle. revert Hs.
  rewrite !compensate_spec by assumption.
  rewrite (spec_SENS_rp d rt rp1 0), !spec_P. intros Hs.
  apply shiftr_le; [lia|]. apply Z.sub_le_mono_r, shiftr_le; [lia|].
  apply Z.mul_le_mono_nonneg_r; assumption.
Qed.

Lemma pressure_monotone_witness :
  0 <= SENS (compensate dev0 8077636 6465444)
  /\ P (compensate dev0 8077636 6465444) <= P (compensate dev0 8077636 6465445).
Proof.
  assert (H : 0 <= SENS (compensate dev0 8077636 6465444))
    by (vm_compute; discriminate).
  split; [exact H|].
  apply pressure_monotone; try exact dev0_calibrated; try exact H;
    unfold is_uint24; lia.
Defined.

Lemma dev_cold_calibrated : calibrated dev_cold.
Proof. unfold calibrated, is_uint16. cbn. lia. Qed.



(** X7: at the reference point, a raw temperature equal to
    [ref_temp << 8], every calibration gives dT = 0, TEMP = 2000, no
    second-order correction, OFF = press_offset * 2^17 and
    SENS = press_sens * 2^16; the temperature stored is exactly 20. *)
Theorem reference_point (d : Adafruit_MS8607) (raw_pressure : Z) :
  calibrated d -> is_uint24 raw_pressure ->
  let c := compensate d (Z.shiftl (ref_temp d) 8) raw_pressure in
  dT c = 0 /\ TEMP c = 2000 /\ T2 c = 0 /\ OFF2 c = 0 /\ SENS2 c = 0
  /\ OFF c = press_offset d * 2 ^ 17
  /\ SENS c = press_sens d * 2 ^ 16
  /\ P c = Z.shiftr (Z.shiftr (raw_pressure * (press_sens d * 2 ^ 16)) 21
                     - press_offset d * 2 ^ 17) 15
  /\ temperature_of c = Float32.of_Z 20.
Proof.
  intros Hd Hrp. cbv zeta.
  assert (Hrt : is_uint24 (Z.shiftl (ref_temp d) 8)).
  { destruct Hd as (_ & _ & _ & _ & H5 & _). unfold is_uint16, is_uint24 in *.
    rewrite Z.shiftl_mul_pow2 by lia. lia. }
  rewrite (compensate_spec d _ raw_pressure Hd Hrt Hrp).
  unfold temperature_of, spec_of, spec_compensate.
  cbn [TEMP T2 OFF2 SENS2 dT OFF SENS P].
  rewrite Z.sub_diag, !Z.mul_0_l, !Z.mul_0_r.
  rewrite !Z.shiftl_mul_pow2 by lia.
  repeat split; try (vm_compute; reflexivity);
    cbn; rewrite ?Z.add_0_r, ?Z.sub_0_r; reflexivity.
Qed.

Lemma reference_point_witness :
  TEMP (compensate dev0 (Z.shiftl (ref_temp dev0) 8) 6465444) = 2000
  /\ temperature_of (compensate dev0 (Z.shiftl (ref_temp dev0) 8) 6465444)
     = Float32.of_Z 20.
Proof.
  destruct (reference_point dev0 6465444 dev0_calibrated)
    as (_ & HT & _ & _ & _ & _ & _ & _ & Ht); [unfold is_uint24; lia|].
  split; [exact HT | exact Ht].
Defined.

Lemma sq_bound (x m : Z) : - m <= x <= m -> 0 <= x ^ 2 <= m * m.
Proof. intros H. rewrite Z.pow_2_r. nia. Qed.

(** X8: the results are bounded and the second-order terms are never
    negative, so the correction never raises the temperature: for every
    calibration and raw sample, |dT| < 2^24, TEMP - 2000 lies in
    [-2^17, 2^17), 0 <= T2 < 3 * 2^15, OFF2 and SENS2 are at least 0 (and 0
    from TEMP = 2000 on), and P lies in [-2^29, 2^29): TEMP, TEMP - T2 and P
    fit 32-bit signed integers. *)
Theorem compensation_bounds (d : Adafruit_MS8607) (raw_temp raw_pressure : Z) :
  calibrated d -> is_uint24 raw_temp -> is_uint24 raw_pressure ->
  let c := compensate d raw_temp raw_pressure in
  - 2 ^ 24 < dT c < 2 ^ 24
  /\ - 2 ^ 17 <= TEMP c - 2000 < 2 ^ 17
  /\ 0 <= T2 c < 3 * 2 ^ 15
  /\ 0 <= OFF2 c /\ 0 <= SENS2 c
  /\ (2000 <= TEMP c -> OFF2 c = 0 /\ SENS2 c = 0)
  /\ - 2 ^ 18 < TEMP c - T2 c <= TEMP c
  /\ - 2 ^ 29 <= P c < 2 ^ 29.
Proof.
  intros Hd Hrt Hrp. cbv zeta.
  rewrite (compensate_spec d raw_temp raw_pressure Hd Hrt Hrp).
  destruct Hd as (Hc1 & Hc2 & Hc3 & Hc4 & Hc5 & Hc6).
  unfold is_uint16, is_uint24 in *.
  unfold spec_of, spec_compensate. cbn [TEMP T2 OFF2 SENS2 dT OFF SENS P].
  rewrite !Z.shiftl_mul_pow2 by lia.
  set (dt := raw_temp - ref_temp d * 2 ^ 8).
  assert (Hdt : - 2 ^ 24 < dt < 2 ^ 24) by (unfold dt; lia).
  assert (Hprod : - 2 ^ 40 <= dt * temp_temp_coeff d < 2 ^ 40) by nia.
  assert (Hq : - 2 ^ 17 <= Z.shiftr (dt * temp_temp_coeff d) 23 < 2 ^ 17)
    by (apply shiftr_bounds; lia).
  set (t := 2000 + Z.shiftr (dt * temp_temp_coeff d) 23) in *.
  assert (Ht : - 2 ^ 17 <= t - 2000 < 2 ^ 17) by (unfold t; lia).
  assert (Hsq : 0 <= dt ^ 2 < 2 ^ 48)
    by (pose proof (sq_bound dt (2 ^ 24 - 1)); lia).
  assert (HT2a : 0 <= Z.shiftr (3 * dt ^ 2) 33 < 3 * 2 ^ 15)
    by (apply shiftr_bounds; lia).
  assert (HT2b : 0 <= Z.shiftr (5 * dt ^ 2) 38 < 3 * 2 ^ 15)
    by (apply shiftr_bounds; lia).
  assert (Ha2 : 0 <= (t - 2000) ^ 2 <= 2 ^ 34)
    by (pose proof (sq_bound (t - 2000) (2 ^ 17)); lia).
  assert (Hb : - 134572 <= t + 1500 <= 134572) by lia.
  assert (Hb2 : 0 <= (t + 1500) ^ 2 <= 134572 * 134572)
    by (apply sq_bound; lia).
  assert (HO : 0 <= 61 * (t - 2000) ^ 2 / 16 <= 61 * 2 ^ 30).
  { split; [apply Z.div_pos; lia | apply Z.div_le_upper_bound; lia]. }
  assert (HS : 0 <= 29 * (t - 2000) ^ 2 / 16 <= 29 * 2 ^ 30).
  { split; [apply Z.div_pos; lia | apply Z.div_le_upper_bound; lia]. }
  assert (Hp4 : - 2 ^ 40 <= press_offset_temp_coeff d * dt < 2 ^ 40) by nia.
  assert (Hp3 : - 2 ^ 40 <= press_sens_temp_coeff d * dt < 2 ^ 40) by nia.
  assert (Hq4 : - 2 ^ 34 <= Z.shiftr (press_offset_temp_coeff d * dt) 6 < 2 ^ 34)
    by (apply shiftr_bounds; lia).
  assert (Hq3 : - 2 ^ 33 <= Z.shiftr (press_sens_temp_coeff d * dt) 7 < 2 ^ 33)
    by (apply shiftr_bounds; lia).
  assert (Htail : forall o2 s2 : Z,
    0 <= o2 <= 2 ^ 42 -> 0 <= s2 <= 2 ^ 38 ->
    - 2 ^ 29
    <= Z.shiftr
         (Z.shiftr
            (raw_pressure
             * (press_sens d * 2 ^ 16
                + Z.shiftr (press_sens_temp_coeff d * dt) 7 - s2)) 21
          - (press_offset d * 2 ^ 17
             + Z.shiftr (press_offset_temp_coeff d * dt) 6 - o2)) 15
    < 2 ^ 29).
  { intros o2 s2 Ho2 Hs2.
    set (sens := press_sens d * 2 ^ 16
                 + Z.shiftr (press_sens_temp_coeff d * dt) 7 - s2).
    assert (Hsens : - 2 ^ 39 <= sens < 2 ^ 39) by (unfold sens; lia).
    assert (Hrs : - 2 ^ 63 <= raw_pressure * sens < 2 ^ 63) by nia.
    assert (Hq21 : - 2 ^ 42 <= Z.shiftr (raw_pressure * sens) 21 < 2 ^ 42)
      by (apply shiftr_bounds; lia).
    apply shiftr_bounds; lia. }
  split; [exact Hdt|]. split; [exact Ht|].
  destruct (t <? 2000) eqn:Ecmp.
  - apply Z.ltb_lt in Ecmp.
    split; [exact HT2a|].
    destruct (t <? -1500) eqn:Ecold.
    + split; [lia|]. split; [lia|]. split; [lia|]. split; [lia|].
      apply Htail; lia.
    + rewrite !Z.add_0_r.
      split; [lia|]. split; [lia|]. split; [lia|]. split; [lia|].
      apply Htail; lia.
  - apply Z.ltb_ge in Ecmp.
    split; [exact HT2b|].
    split; [lia|]. split; [lia|]. split; [intros _; split; reflexivity|].
    split; [lia|]. apply Htail; lia.
Qed.

Lemma compensation_bounds_witness :
  0 <= OFF2 (compensate dev_cold 0 0)
  /\ - 2 ^ 29 <= P (compensate dev_cold 0 0) < 2 ^ 29.
Proof.
  destruct (compensation_bounds dev_cold 0 0 dev_cold_calibrated)
    as (_ & _ & _ & HO & _ & _ & _ & HP); [unfold is_uint24; lia ..|].
  split; [exact HO | exact HP].
Defined.

(** ** The read cycle *)

Lemma tl4_drop {A : Type} (l : list A) : tl (tl (tl (tl l))) = drop 4 l.
Proof. destruct l as [|a [|b [|c [|e l]]]]; reflexivity. Qed.

(** [_read] in full: result, object and environment afterwards. *)
Lemma read_eq (h : Header) (status : Z) (buffer : Z * Z * Z) (s : State) :
  exists st raw_temp raw_pressure s1,
    sample h status buffer s = Some ((st, raw_temp, raw_pressure), s1)
    /\ _read h status buffer s
       = Some (to_bool st,
               with_this s1
                 (store_reading (this s)
                    (compensate (this s) raw_temp raw_pressure)))
    /\ bus_in s1 = drop 4 (bus_in s)
    /\ clock s1 = clock s + 36
    /\ length (bus_log s1) = (length (bus_log s) + 6)%nat.
Proof.
  pose proof (sample_eq h status buffer s) as Hs. cbv zeta in Hs.
  eexists _, _, _, _. split; [exact Hs|].
  split; [rewrite (read_sample _ _ _ _ _ _ _ _ Hs); reflexivity|].
  cbn [bus_in clock bus_log]. rewrite tl4_drop, length_app.
  repeat split. lia.
Qed.

(** X9: a read cycle always uses the bus the same way, whatever the
    resolution setting and whatever the replies: it consumes exactly four
    replies, adds six entries to the trace and lets exactly 36 ms pass (two
    fixed delays of 18 ms). *)
Theorem read_cycle_cost (h : Header) (status : Z) (buffer : Z * Z * Z)
    (s : State) :
  exists b s',
    _read h status buffer s = Some (b, s')
    /\ bus_in s' = drop 4 (bus_in s)
    /\ clock s' = clock s + 36
    /\ length (bus_log s') = (length (bus_log s) + 6)%nat.
Proof.
  destruct (read_eq h status buffer s)
    as (st & rt & rp & s1 & _ & Hr & Hin & Hck & Hlog).
  eexists _, _. split; [exact Hr|].
  split; [exact Hin|]. split; [exact Hck | exact Hlog].
Qed.

(** [sample] when both ADC reads are answered with three bytes. *)
Lemma sample_answered (h : Header) (status : Z) (buffer : Z * Z * Z)
    (s : State) (t0 t1 t2 p0 p1 p2 : Z) :
  nth 1 (bus_in s) Nak = Ack [t0; t1; t2] ->
  nth 3 (bus_in s) Nak = Ack [p0; p1; p2] ->
  is_uint8 t0 -> is_uint8 t1 -> is_uint8 t2 ->
  is_uint8 p0 -> is_uint8 p1 -> is_uint8 p2 ->
  exists st s1,
    sample h status buffer s
    = Some ((st, big_endian24 t0 t1 t2, big_endian24 p0 p1 p2), s1)
    /\ this s1 = this s /\ bus_in s1 = drop 4 (bus_in s).
Proof.
  intros Ht Hp Ht0 Ht1 Ht2 Hp0 Hp1 Hp2.
  pose proof (sample_eq h status buffer s) as Hs. cbv zeta in Hs.
  rewrite Ht, Hp, !received_3 in Hs. cbv iota in Hs.
  rewrite (to_uint8_small t0), (to_uint8_small t1), (to_uint8_small t2),
    (to_uint8_small p0), (to_uint8_small p1), (to_uint8_small p2)
    in Hs by assumption.
  destruct (adc_value_bytes t0 t1 t2 Ht0 Ht1 Ht2) as [Et Rt].
  destruct (adc_value_bytes p0 p1 p2 Hp0 Hp1 Hp2) as [Ep Rp].
  rewrite Et, Ep in Hs.
  eexists _, _. split; [exact Hs|]. cbn [this bus_in].
  split; [reflexivity | apply tl4_drop].
Qed.

(** X10: when both ADC reads are answered with three bytes, the reading
    that [_read] stores is the compensation of the big-endian values of
    those bytes, as the specification's algorithm gives it for the
    calibration of the object: it depends neither on the previous reading,
    nor on what [status] and [buffer] held, nor on whether the two start
    commands were acknowledged. *)
Theorem read_stores_compensated_sample (h : Header) (status : Z)
    (buffer : Z * Z * Z) (s : State) (t0 t1 t2 p0 p1 p2 : Z) :
  calibrated (this s) ->
  nth 1 (bus_in s) Nak = Ack [t0; t1; t2] ->
  nth 3 (bus_in s) Nak = Ack [p0; p1; p2] ->
  is_uint8 t0 -> is_uint8 t1 -> is_uint8 t2 ->
  is_uint8 p0 -> is_uint8 p1 -> is_uint8 p2 ->
  exists b s',
    _read h status buffer s = Some (b, s')
    /\ this s'
       = store_reading (this s)
           (spec_of (this s) (big_endian24 t0 t1 t2) (big_endian24 p0 p1 p2)).
Proof.
  intros Hd Ht Hp Ht0 Ht1 Ht2 Hp0 Hp1 Hp2.
  destruct (sample_answered h status buffer s t0 t1 t2 p0 p1 p2)
    as (st & s1 & Hs & Hthis & _); try assumption.
  destruct (adc_value_bytes t0 t1 t2 Ht0 Ht1 Ht2) as [_ Rt].
  destruct (adc_value_bytes p0 p1 p2 Hp0 Hp1 Hp2) as [_ Rp].
  eexists _, _. split; [exact (read_sample _ _ _ _ _ _ _ _ Hs)|].
  cbn [with_this this]. rewrite Hthis.
  rewrite compensate_spec by assumption. reflexivity.
Qed.

Lemma read_stores_compensated_sample_witness :
  exists b s',
    _read ms8607_h 0 (0, 0, 0) (st0 cycle_first_fails) = Some (b, s')
    /\ this s' = store_reading dev0 (spec_of dev0 8077636 6465444).
Proof.
  apply (read_stores_compensated_sample ms8607_h 0 (0, 0, 0)
           (st0 cycle_first_fails) 0x7B 0x41 0x44 0x62 0xA7 0xA4);
    first [ exact dev0_calibrated | reflexivity | unfold is_uint8; lia ].
Defined.

(** X11: when the raw temperature is read and the read of the raw pressure
    then fails, the raw pressure is assembled from the stale buffer: the
    read command byte followed by the two low bytes of the raw
    temperature. *)
Theorem failed_pressure_read_is_stale (h : Header) (status : Z)
    (buffer : Z * Z * Z) (s : State) (t0 t1 t2 : Z) :
  nth 1 (bus_in s) Nak = Ack [t0; t1; t2] ->
  received (nth 3 (bus_in s) Nak) 3 = None ->
  is_uint8 t0 -> is_uint8 t1 -> is_uint8 t2 ->
  exists st s1,
    sample h status buffer s
    = Some ((st, big_endian24 t0 t1 t2,
             big_endian24 (to_uint8 (PSENSOR_READ_ADC h)) t1 t2), s1).
Proof.
  intros Ht Hp H0 H1 H2.
  pose proof (sample_eq h status buffer s) as Hs. cbv zeta in Hs.
  rewrite Ht, Hp, !received_3 in Hs. cbv iota in Hs. cbn [fst snd] in Hs.
  rewrite (to_uint8_small t0), (to_uint8_small t1), (to_uint8_small t2)
    in Hs by assumption.
  destruct (adc_value_bytes t0 t1 t2 H0 H1 H2) as [Et _].
  destruct (adc_value_bytes (to_uint8 (PSENSOR_READ_ADC h)) t1 t2
              (to_uint8_range _) H1 H2) as [Ep _].
  rewrite Et, Ep in Hs. eexists _, _. exact Hs.
Qed.

Lemma failed_pressure_read_is_stale_witness :
  exists st s1,
    sample ms8607_h 0 (0, 0, 0) (st0 cycle_last_fails)
    = Some ((st, 8077636, 0x4144), s1).
Proof.
  apply (failed_pressure_read_is_stale ms8607_h 0 (0, 0, 0)
           (st0 cycle_last_fails) 0x7B 0x41 0x44);
    first [ reflexivity | unfold is_uint8; lia ].
Defined.

(** ** Initialisation *)

Lemma drop_S_tl {A : Type} (n : nat) (l : list A) : drop (S n) l = drop n (tl l).
Proof. destruct l; [destruct n|]; reflexivity. Qed.

Lemma prom_loop_env (h : Header) (idx : list Z) (tmp_buffer : Z * Z)
    (buffer : list Z) (s : State) :
  Forall (fun i => (Z.to_nat i < length buffer)%nat) idx ->
  exists words s1,
    prom_loop h idx tmp_buffer buffer s = Some (words, s1)
    /\ bus_in s1 = drop (length idx) (bus_in s)
    /\ clock s1 = clock s
    /\ bus_log s1
       = bus_log s ++
         ((fun i =>
             I2CWriteThenRead
               [to_uint8 (PROM_ADDRESS_READ_ADDRESS_0 h + to_uint8 (2 * i))] 2)
          <$> idx).
Proof.
  revert tmp_buffer buffer s.
  induction idx as [|i idx IH]; intros tmp_buffer buffer s Hidx.
  - exists buffer, s. cbn [fmap list_fmap length drop].
    rewrite app_nil_r. repeat split.
  - inversion Hidx as [|? ? Hi Hrest]; subst.
    rewrite prom_loop_cons by exact Hi.
    edestruct IH as (words & s1 & Hloop & Hin & Hck & Hlog);
      [| exists words, s1; split; [exact Hloop|] ].
    + rewrite length_insert. exact Hrest.
    + rewrite Hin, Hck, Hlog. cbn [advance bus_in clock bus_log length].
      rewrite drop_S_tl, fmap_cons, <- app_assoc. repeat split.
Qed.

(** X12: [_init] always reads the seven PROM words in the same way,
    whatever the bus answers: seven write-then-read transactions of 2 bytes
    at the addresses PROM_ADDRESS_READ_ADDRESS_0 + 0, 2, ..., 12 (as bytes),
    in this order, no delay and nothing else; it consumes exactly seven
    replies. *)
Theorem init_trace (h : Header) (sensor_id : Z) (tmp_buffer : Z * Z)
    (buffer : list Z) (s : State) :
  length buffer = 8%nat ->
  exists b s',
    _init h sensor_id tmp_buffer buffer s = Some (b, s')
    /\ bus_log s'
       = bus_log s ++
         ((fun i =>
             I2CWriteThenRead
               [to_uint8 (PROM_ADDRESS_READ_ADDRESS_0 h + to_uint8 (2 * i))] 2)
          <$> [0; 1; 2; 3; 4; 5; 6])
    /\ bus_in s' = drop 7 (bus_in s)
    /\ clock s' = clock s.
Proof.
  intros Hlen.
  assert (Hidx : Forall (fun i => (Z.to_nat i < length buffer)%nat) (seqZ 0 7)).
  { rewrite Hlen. apply Forall_forall. intros i Hi.
    apply elem_of_seqZ in Hi. lia. }
  destruct (prom_loop_env h (seqZ 0 7) tmp_buffer buffer s Hidx)
    as (words & s1 & Hloop & Hin & Hck & Hlog).
  destruct (prom_loop_total h (seqZ 0 7) tmp_buffer buffer s Hidx)
    as (words' & s1' & Hloop' & Hwords & _).
  rewrite Hloop in Hloop'. injection Hloop' as <- <-.
  rewrite (init_eq h sensor_id tmp_buffer buffer words s s1 Hloop) by lia.
  destruct (crc4 (take 7 words) =? stored_crc words);
    eexists _, _; (split; [reflexivity|]);
    cbn [with_this bus_log bus_in clock];
    (split; [exact Hlog|]); split; assumption.
Qed.

Lemma init_trace_witness :
  exists b s',
    _init ms8607_h 0 (0, 0) (replicate 8 0) (st0 []) = Some (b, s')
    /\ bus_log s'
       = [I2CWriteThenRead [0xA0] 2; I2CWriteThenRead [0xA2] 2;
          I2CWriteThenRead [0xA4] 2; I2CWriteThenRead [0xA6] 2;
          I2CWriteThenRead [0xA8] 2; I2CWriteThenRead [0xAA] 2;
          I2CWriteThenRead [0xAC] 2].
Proof.
  destruct (init_trace ms8607_h 0 (0, 0) (replicate 8 0) (st0 []) eq_refl)
    as (b & s' & Hinit & Hlog & _).
  exists b, s'. split; [exact Hinit | exact Hlog].
Defined.

Lemma lookup_total_app_7 (words post : list Z) (i : nat) :
  length words = 7%nat -> (i < 7)%nat -> (words ++ post) !!! i = words !!! i.
Proof.
  intros Hlen Hi. rewrite lookup_total_app_l by lia. reflexivity.
Qed.

(** [_init] on a bus that answers the PROM reads with a valid vector. *)
Lemma init_valid_prom (h : Header) (sensor_id : Z) (tmp_buffer : Z * Z)
    (buffer words : list Z) (s : State) (rest : list reply) :
  length buffer = 8%nat -> length words = 7%nat -> Forall is_uint16 words ->
  crc4 words = stored_crc words ->
  bus_in s = prom_replies words ++ rest ->
  exists s1,
    _init h sensor_id tmp_buffer buffer s
    = Some (true,
            with_this s1
              (set_calibration h (this s)
                 (words !!! 1%nat) (words !!! 2%nat) (words !!! 3%nat)
                 (words !!! 4%nat) (words !!! 5%nat) (words !!! 6%nat)))
    /\ bus_in s1 = rest.
Proof.
  intros Hbuf Hlen Hwords Hvalid Hbus.
  destruct (prom_loop_reads h words [] (take 7 buffer) (drop 7 buffer)
              tmp_buffer s rest) as (s1 & Hloop & Hthis & Hrest);
    [rewrite length_take; lia | exact Hwords | exact Hbus |].
  rewrite Hlen in Hloop. cbn [app length] in Hloop.
  rewrite take_drop in Hloop.
  rewrite (init_eq h sensor_id tmp_buffer buffer _ s s1 Hloop)
    by (rewrite length_app, length_drop; lia).
  assert (Htake : take 7 (words ++ drop 7 buffer) = words).
  { rewrite <- Hlen. apply take_app_length. }
  assert (Hst : stored_crc (words ++ drop 7 buffer) = stored_crc words).
  { unfold stored_crc. destruct words; [discriminate | reflexivity]. }
  rewrite Htake, Hst, Hvalid, Z.eqb_refl.
  rewrite !lookup_total_app_7 by (try exact Hlen; lia).
  rewrite Hthis. exists s1. split; [reflexivity | exact Hrest].
Qed.

Lemma words_calibrated (h : Header) (d : Adafruit_MS8607) (words : list Z) :
  length words = 7%nat -> Forall is_uint16 words ->
  calibrated
    (set_calibration h d
       (words !!! 1%nat) (words !!! 2%nat) (words !!! 3%nat)
       (words !!! 4%nat) (words !!! 5%nat) (words !!! 6%nat)).
Proof.
  intros Hlen Hwords. unfold calibrated.
  cbn [set_calibration press_sens press_offset press_sens_temp_coeff
         press_offset_temp_coeff ref_temp temp_temp_coeff].
  assert (Hk : forall k : nat, (k < 7)%nat -> is_uint16 (words !!! k)).
  { intros k Hk. rewrite Forall_forall in Hwords. apply Hwords.
    apply list_elem_of_lookup_total_2. lia. }
  repeat split; apply Hk; lia.
Qed.

(** X13: on a bus that answers the seven PROM reads with the words of a
    valid calibration vector, [_init] returns true and installs words 1 to 6
    as [press_sens], [press_offset], [press_sens_temp_coeff],
    [press_offset_temp_coeff], [ref_temp] and [temp_temp_coeff], sets the
    resolution to OSR 8192, and leaves the cached reading as it was; the
    replies after the seventh are left for later transactions. *)
Theorem init_installs_calibration (h : Header) (sensor_id : Z)
    (tmp_buffer : Z * Z) (buffer words : list Z) (s : State)
    (rest : list reply) :
  length buffer = 8%nat -> length words = 7%nat -> Forall is_uint16 words ->
  crc4 words = stored_crc words ->
  bus_in s = prom_replies words ++ rest ->
  exists s',
    _init h sensor_id tmp_buffer buffer s = Some (true, s')
    /\ this s'
       = set_calibration h (this s)
           (words !!! 1%nat) (words !!! 2%nat) (words !!! 3%nat)
           (words !!! 4%nat) (words !!! 5%nat) (words !!! 6%nat)
    /\ calibrated (this s')
    /\ _temperature (this s') = _temperature (this s)
    /\ _pressure (this s') = _pressure (this s)
    /\ bus_in s' = rest.
Proof.
  intros Hbuf Hlen Hwords Hvalid Hbus.
  destruct (init_valid_prom h sensor_id tmp_buffer buffer words s rest
              Hbuf Hlen Hwords Hvalid Hbus) as (s1 & Hinit & Hrest).
  eexists. split; [exact Hinit|]. cbn [with_this this bus_in].
  split; [reflexivity|].
  split; [apply words_calibrated; assumption|].
  repeat split. exact Hrest.
Qed.

Lemma init_installs_calibration_witness :
  exists s',
    _init ms8607_h 0 (0, 0) (replicate 8 0) (st0 prom_ok) = Some (true, s')
    /\ this s' = set_calibration ms8607_h dev0 46372 43981 29059 27842 31553 28175.
Proof.
  destruct (init_installs_calibration ms8607_h 0 (0, 0) (replicate 8 0)
              [0x4000; 46372; 43981; 29059; 27842; 31553; 28175]
              (st0 prom_ok) [])
    as (s' & Hinit & Hthis & _);
    [reflexivity | reflexivity | repeat constructor; unfold is_uint16; lia
    | reflexivity | reflexivity |].
  exists s'. split; [exact Hinit | exact Hthis].
Defined.

(** ** From initialisation to a reading *)

(** X14: from [_init] to a reading.  When the bus delivers a valid
    calibration vector and then answers a read cycle with raw bytes, [_init]
    returns true and the read cycle that follows stores the reading that the
    specification's algorithm gives for words 1 to 6 of the vector
    (sensitivity, offset, their temperature coefficients, reference
    temperature, temperature coefficient) and the big-endian values of the
    raw bytes; the two calls consume exactly these eleven replies. *)
Theorem init_then_read (h : Header) (sensor_id : Z) (tmp_buffer : Z * Z)
    (buffer words : list Z) (t p : Z * Z * Z) (status : Z)
    (read_buffer : Z * Z * Z) (s : State) (rest : list reply) :
  length buffer = 8%nat -> length words = 7%nat -> Forall is_uint16 words ->
  crc4 words = stored_crc words ->
  is_uint8 t.1.1 -> is_uint8 t.1.2 -> is_uint8 t.2 ->
  is_uint8 p.1.1 -> is_uint8 p.1.2 -> is_uint8 p.2 ->
  bus_in s = prom_then_cycle words t p ++ rest ->
  exists s1 b s2,
    _init h sensor_id tmp_buffer buffer s = Some (true, s1)
    /\ _read h status read_buffer s1 = Some (b, s2)
    /\ bus_in s2 = rest
    /\ let c :=
         spec_compensate (words !!! 5%nat) (words !!! 6%nat)
           (words !!! 2%nat) (words !!! 4%nat)
           (words !!! 1%nat) (words !!! 3%nat)
           (big_endian24 t.1.1 t.1.2 t.2) (big_endian24 p.1.1 p.1.2 p.2) in
       _temperature (this s2) = temperature_of c
       /\ _pressure (this s2) = pressure_of c.
Proof.
  intros Hbuf Hlen Hwords Hvalid Ht0 Ht1 Ht2 Hp0 Hp1 Hp2 Hbus.
  unfold prom_then_cycle in Hbus. rewrite <- app_assoc in Hbus.
  destruct (init_valid_prom h sensor_id tmp_buffer buffer words s _
              Hbuf Hlen Hwords Hvalid Hbus) as (s0 & Hinit & Hin).
  cbn [app] in Hin.
  set (d := set_calibration h (this s)
              (words !!! 1%nat) (words !!! 2%nat) (words !!! 3%nat)
              (words !!! 4%nat) (words !!! 5%nat) (words !!! 6%nat)) in *.
  assert (Hcal : calibrated d) by (apply words_calibrated; assumption).
  destruct (sample_answered h status read_buffer (with_this s0 d)
              t.1.1 t.1.2 t.2 p.1.1 p.1.2 p.2)
    as (st & s1 & Hs & Hthis & Hin1);
    try assumption; try (cbn [with_this bus_in]; rewrite Hin; reflexivity).
  cbn [with_this this bus_in] in Hthis, Hin1.
  destruct (adc_value_bytes t.1.1 t.1.2 t.2 Ht0 Ht1 Ht2) as [_ Rt].
  destruct (adc_value_bytes p.1.1 p.1.2 p.2 Hp0 Hp1 Hp2) as [_ Rp].
  eexists _, _, _.
  split; [exact Hinit|].
  split; [exact (read_sample _ _ _ _ _ _ _ _ Hs)|].
  cbn [with_this this bus_in]. rewrite Hin1, Hin, Hthis.
  split; [reflexivity|].
  rewrite compensate_spec by assumption. split; reflexivity.
Qed.

Lemma init_then_read_witness :
  exists s1 b s2,
    _init ms8607_h 0 (0, 0) (replicate 8 0)
      (st0 (prom_then_cycle
              [0x4000; 46372; 43981; 29059; 27842; 31553; 28175]
              (0x7B, 0x41, 0x44) (0x62, 0xA7, 0xA4)))
    = Some (true, s1)
    /\ _read ms8607_h 0 (0, 0, 0) s1 = Some (b, s2)
    /\ bus_in s2 = []
    /\ _temperature (this s2)
       = temperature_of (spec_of dev0 0x7B4144 0x62A7A4).
Proof.
  destruct (init_then_read ms8607_h 0 (0, 0) (replicate 8 0)
              [0x4000; 46372; 43981; 29059; 27842; 31553; 28175]
              (0x7B, 0x41, 0x44) (0x62, 0xA7, 0xA4) 0 (0, 0, 0)
              (st0 (prom_then_cycle
                      [0x4000; 46372; 43981; 29059; 27842; 31553; 28175]
                      (0x7B, 0x41, 0x44) (0x62, 0xA7, 0xA4))) [])
    as (s1 & b & s2 & Hb & Hr & Hin & Ht & _);
    first [ reflexivity
          | unfold is_uint8; cbn; lia
          | repeat constructor; unfold is_uint16; lia
          | idtac ].
  exists s1, b, s2. split; [exact Hb|]. split; [exact Hr|].
  split; [exact Hin|]. rewrite Ht. vm_compute. reflexivity.
Defined.

(** ** Events *)

(** The conversion of the [uint32_t] time to the [int32_t] member keeps
    it up to 2^31 - 1 ms and makes it negative from 2^31 ms on. *)
Lemma timestamp_int32 (t : Z) :
  - 2 ^ 31 <= to_int32 (to_uint32 t) < 2 ^ 31
  /\ (to_int32 (to_uint32 t) - t) mod 2 ^ 32 = 0
  /\ (0 <= t < 2 ^ 31 -> to_int32 (to_uint32 t) = t)
  /\ (2 ^ 31 <= t < 2 ^ 32 -> to_int32 (to_uint32 t) = t - 2 ^ 32).
Proof.
  unfold to_int32, to_uint32. repeat split; intros;
    Z.div_mod_to_equations; lia.
Qed.

(** X15: [getEvent] runs one read cycle and then fills the events that
    were asked for.  It returns true; an event carries the sensor id and
    type of its channel, the value cached at the end of this cycle, and as
    timestamp the [uint32_t] clock on entry (36 ms before the end of the
    call) converted to the [int32_t] member: the clock itself below 2^31 ms,
    the clock minus 2^32, a negative number, from 2^31 ms to 2^32 ms.  The
    humidity argument has no effect. *)
Theorem getEvent_events (h : Header) (pressure temp humidity : bool)
    (status : Z) (buffer : Z * Z * Z) (s : State) :
  exists b s',
    _read h status buffer s = Some (b, s')
    /\ clock s' = clock s + 36
    /\ getEvent h pressure temp humidity status buffer s
       = Some ((true,
                if pressure
                then Some {| ev_version := sizeof_sensors_event_t h;
                             ev_sensor_id := _sensorid_pressure (this s);
                             ev_type := SENSOR_TYPE_PRESSURE h;
                             ev_timestamp := to_int32 (to_uint32 (clock s));
                             ev_value := _pressure (this s') |}
                else None,
                if temp
                then Some {| ev_version := sizeof_sensors_event_t h;
                             ev_sensor_id := _sensorid_temp (this s);
                             ev_type := SENSOR_TYPE_AMBIENT_TEMPERATURE h;
                             ev_timestamp := to_int32 (to_uint32 (clock s));
                             ev_value := _temperature (this s') |}
                else None), s')
    /\ (0 <= clock s < 2 ^ 31 -> to_int32 (to_uint32 (clock s)) = clock s)
    /\ (2 ^ 31 <= clock s < 2 ^ 32 ->
        to_int32 (to_uint32 (clock s)) = clock s - 2 ^ 32)
    /\ getEvent h pressure temp humidity status buffer s
       = getEvent h pressure temp (negb humidity) status buffer s.
Proof.
  destruct (read_eq h status buffer s)
    as (st & rt & rp & s1 & _ & Hr & _ & Hck & _).
  destruct (timestamp_int32 (clock s)) as (_ & _ & Hlo & Hhi).
  eexists _, _. split; [exact Hr|]. split; [exact Hck|].
  rewrite !(getEvent_read _ _ _ _ _ _ _ _ _ Hr).
  split; [reflexivity|]. split; [exact Hlo|]. split; [exact Hhi|].
  reflexivity.
Qed.

Lemma getEvent_events_witness :
  exists p t s',
    getEvent ms8607_h true true false 0 (0, 0, 0) (st_late cycle_ok)
    = Some ((true, Some p, Some t), s')
    /\ ev_timestamp p = -1294967296
    /\ ev_timestamp t = -1294967296
    /\ clock s' = 3000000036.
Proof.
  destruct (getEvent_events ms8607_h true true false 0 (0, 0, 0)
              (st_late cycle_ok))
    as (b & s' & _ & Hck & Hg & _ & Hhi & _).
  change (clock (st_late cycle_ok)) with 3000000000 in Hck, Hg, Hhi.
  eexists _, _, s'. split; [exact Hg|]. cbn [ev_timestamp].
  rewrite Hhi by lia. rewrite Hck. repeat split.
Defined.

(** X16: the two sensor views.  [Adafruit_MS8607_Temp::getEvent] and
    [Adafruit_MS8607_Pressure::getEvent] each run a complete read cycle of
    both channels (both cached values are refreshed), always return true,
    and deliver the temperature, respectively the pressure, event of
    [getEvent]: the value cached at the end of the cycle, with the
    [uint32_t] clock on entry converted to [int32_t] as timestamp. *)
Theorem sensor_views (h : Header) (status : Z) (buffer : Z * Z * Z)
    (s : State) :
  exists b s',
    _read h status buffer s = Some (b, s')
    /\ Temp_getEvent h status buffer s
       = Some ((true,
                Some {| ev_version := sizeof_sensors_event_t h;
                        ev_sensor_id := _sensorid_temp (this s);
                        ev_type := SENSOR_TYPE_AMBIENT_TEMPERATURE h;
                        ev_timestamp := to_int32 (to_uint32 (clock s));
                        ev_value := _temperature (this s') |}), s')
    /\ Pressure_getEvent h status buffer s
       = Some ((true,
                Some {| ev_version := sizeof_sensors_event_t h;
                        ev_sensor_id := _sensorid_pressure (this s);
                        ev_type := SENSOR_TYPE_PRESSURE h;
                        ev_timestamp := to_int32 (to_uint32 (clock s));
                        ev_value := _pressure (this s') |}), s').
Proof.
  destruct (read_eq h status buffer s)
    as (st & rt & rp & s1 & _ & Hr & _).
  eexists _, _. split; [exact Hr|].
  unfold Temp_getEvent, Pressure_getEvent.
  rewrite !M_bind_eq, !(getEvent_read _ _ _ _ _ _ _ _ _ Hr).
  split; reflexivity.
Qed.

(** ** Raw values *)

(** X17: the assembly of a raw value is a bijection between triples of
    bytes and 24-bit numbers: the value assembled from the three bytes of a
    24-bit number is that number, and the three bytes of an assembled value
    are the bytes it was assembled from. *)
Theorem adc_value_round_trip (v b0 b1 b2 : Z) :
  is_uint24 v -> is_uint8 b0 -> is_uint8 b1 -> is_uint8 b2 ->
  adc_value (Z.shiftr v 16, Z.land (Z.shiftr v 8) 0xFF, Z.land v 0xFF) = v
  /\ Z.shiftr (adc_value (b0, b1, b2)) 16 = b0
  /\ Z.land (Z.shiftr (adc_value (b0, b1, b2)) 8) 0xFF = b1
  /\ Z.land (adc_value (b0, b1, b2)) 0xFF = b2.
Proof.
  unfold is_uint24, is_uint8. intros Hv H0 H1 H2.
  change 255 with (Z.ones 8). rewrite !Z.land_ones by lia.
  rewrite !Z.shiftr_div_pow2 by lia.
  split.
  - assert (Hq : is_uint8 (v / 2 ^ 16)).
    { unfold is_uint8.
      split; [apply Z.div_pos; lia | apply Z.div_lt_upper_bound; lia]. }
    assert (Hm : is_uint8 ((v / 2 ^ 8) mod 2 ^ 8))
      by (apply Z.mod_pos_bound; lia).
    assert (Hl : is_uint8 (v mod 2 ^ 8)) by (apply Z.mod_pos_bound; lia).
    rewrite (proj1 (adc_value_bytes _ _ _ Hq Hm Hl)). unfold big_endian24.
    Z.div_mod_to_equations. lia.
  - rewrite (proj1 (adc_value_bytes b0 b1 b2 H0 H1 H2)). unfold big_endian24.
    repeat split; Z.div_mod_to_equations; lia.
Qed.

Lemma adc_value_round_trip_witness :
  adc_value (Z.shiftr 8077636 16, Z.land (Z.shiftr 8077636 8) 0xFF,
             Z.land 8077636 0xFF) = 8077636
  /\ Z.shiftr (adc_value (0x7B, 0x41, 0x44)) 16 = 0x7B.
Proof.
  destruct (adc_value_round_trip 8077636 0x7B 0x41 0x44) as (H1 & H2 & _);
    [unfold is_uint24; lia | unfold is_uint8; lia ..|].
  split; [exact H1 | exact H2].
Defined.
